(** * Tabbycat API views: visibility gate and check-in endpoints

    A shallow embedding of [tabbycat/api/views.py]: the pairing permission
    ([PairingViewSet.Permission]), the check-in endpoints
    ([BaseCheckinsView] and its three subclasses) and the standings view
    ([BaseStandingsView]).

    Python values are modelled as records and inductive types, the database
    as an explicit store threaded through a state-and-exception monad, and
    Django querysets as lazy predicates that are evaluated against the store
    at the moment the source evaluates them. *)

From Stdlib Require Import ZArith List String Bool Lia.
From stdpp Require Import gmap strings.
Import ListNotations.

Open Scope string_scope.
Open Scope Z_scope.

(** ** Python runtime: exceptions and results *)

Inductive Exception : Type :=
| Http404 (msg : string)
| PermissionDenied
| AttributeError (name : string)
| KeyError
| TypeError
| DoesNotExist
| MultipleObjectsReturned
| RelatedObjectDoesNotExist
| IntegrityError
| ChannelError (msg : string).

Inductive result (A : Type) : Type :=
| Ok (a : A)
| Raise (e : Exception).

Arguments Ok {A} a.
Arguments Raise {A} e.

(** ** Data model *)

(** Modelled from the spec: the [Round.STATUS_*] constants of
    [tournaments/models.py] are not part of the source at hand; the spec
    lists the four draw-release states. *)
Inductive DrawStatus : Type :=
| STATUS_NONE
| STATUS_DRAFT
| STATUS_CONFIRMED
| STATUS_RELEASED.

Definition DrawStatus_eqb (a b : DrawStatus) : bool :=
  match a, b with
  | STATUS_NONE, STATUS_NONE
  | STATUS_DRAFT, STATUS_DRAFT
  | STATUS_CONFIRMED, STATUS_CONFIRMED
  | STATUS_RELEASED, STATUS_RELEASED => true
  | _, _ => false
  end.

Record Round : Type := {
  round_id : Z;
  draw_status : DrawStatus;
}.

(** The value of a tournament preference: an enumerated choice (a string),
    a number (the check-in windows) or a flag. *)
Inductive PrefValue : Type :=
| PStr (s : string)
| PInt (n : Z)
| PBool (b : bool).

Record Tournament : Type := {
  tournament_id : Z;
  slug : string;
  current_round : Round;
  pref : string -> PrefValue;
}.

Record User : Type := {
  is_administrator : bool;
}.

Record Request : Type := {
  user : User;
}.

(** [getattr(round, name)] for the attributes of a round the views read. *)
Definition Round_getattr (r : Round) (name : string) : result DrawStatus :=
  if String.eqb name "draw_status" then Ok (draw_status r)
  else Raise (AttributeError name).

(** ** PairingViewSet and its permission class *)

Module PairingViewSet.

(** The view object as the permission sees it: the tournament and round
    resolved from the URL and the class attributes of the view. *)
Record View : Type := {
  tournament : Tournament;
  round : Round;
  access_preference : string;
  round_released_field : string;
  round_released_value : DrawStatus;
}.

(** [access_preference = 'public_draw'], [round_released_field =
    'draw_status'], [round_released_value = Round.STATUS_RELEASED]. *)
Definition make (t : Tournament) (r : Round) : View :=
  {| tournament := t;
     round := r;
     access_preference := "public_draw";
     round_released_field := "draw_status";
     round_released_value := STATUS_RELEASED |}.

Module Permission.

(** [getattr(view.round, view.round_released_field) ==
    view.round_released_value] *)
Definition get_round_status (view : View) : result bool :=
  match Round_getattr (round view) (round_released_field view) with
  | Ok v => Ok (DrawStatus_eqb v (round_released_value view))
  | Raise e => Raise e
  end.

(** The dictionary literal is built in full before it is indexed: its
    three values are evaluated in order, ['current'] with the
    short-circuit of [and]. *)
Definition get_tournament_preference (view : View) (op : string)
  : result bool :=
  match
    (if Z.eqb (round_id (current_round (tournament view)))
              (round_id (round view))
     then get_round_status view
     else Ok false)
  with
  | Raise e => Raise e
  | Ok v_current =>
    match get_round_status view with
    | Raise e => Raise e
    | Ok v_all_released =>
      let table : gmap string bool :=
        {[ "off" := false;
           "current" := v_current;
           "all-released" := v_all_released ]} in
      match pref (tournament view) (access_preference view) with
      | PStr key =>
        match table !! key with
        | Some b => Ok b
        | None => Raise KeyError
        end
      | _ => Raise KeyError
      end
    end
  end.

(** Modelled from the spec: [PublicPreferencePermission.has_permission]
    ([api/permissions.py]) is not part of the source at hand. The spec's
    gate grants an administrator unconditionally and constrains every
    other requester by the tournament preference. *)
Definition has_permission (request : Request) (view : View)
  : result bool :=
  if is_administrator (user request) then Ok true
  else get_tournament_preference view "retrieve".

End Permission.

End PairingViewSet.

(** The gate as the specification words it, over the enumerated release
    preference. *)
Inductive ReleasePreference : Type :=
| pref_off
| pref_current
| pref_all_released.

Definition ReleasePreference_key (p : ReleasePreference) : string :=
  match p with
  | pref_off => "off"
  | pref_current => "current"
  | pref_all_released => "all-released"
  end.

Definition Visible (p : ReleasePreference)
    (isAdministrator roundIsCurrent roundReleased : bool) : bool :=
  if isAdministrator then true
  else match p with
       | pref_off => false
       | pref_current => roundIsCurrent && roundReleased
       | pref_all_released => roundReleased
       end.

(** ** The store behind the check-in endpoints *)

(** The model classes the check-in and standings views are instantiated
    with. *)
Inductive Model : Type :=
| Adjudicator
| Speaker
| Venue
| Team.

Definition Model_eqb (a b : Model) : bool :=
  match a, b with
  | Adjudicator, Adjudicator
  | Speaker, Speaker
  | Venue, Venue
  | Team, Team => true
  | _, _ => false
  end.

(** [Model._meta.object_name], the name Django puts in its messages. *)
Definition Model_object_name (m : Model) : string :=
  match m with
  | Adjudicator => "Adjudicator"
  | Speaker => "Speaker"
  | Venue => "Venue"
  | Team => "Team"
  end.

(** Modelled from the spec: the identifier models of [checkins/models.py]
    are not part of the source at hand. An identifier is a scannable code
    owned by one checkable; the views read its [barcode] and its
    [instance_attr] (the resource kind sent as the message's ['type']). It
    has no [checkin_identifier] attribute of its own: that relation belongs
    to the checkable. *)
Record Identifier : Type := {
  barcode : string;
  instance_attr : string;
}.

(** A row of a model table: a person or venue of one tournament, owning at
    most one identifier. The tournament is the one reached through the
    view's [tournament_field] lookup, the categories those reached through
    [categories__pk]. *)
Record Checkable : Type := {
  row_model : Model;
  pk : Z;
  row_tournament : Z;
  row_categories : list Z;
  checkin_identifier : option Identifier;
}.

Definition with_identifier (o : Checkable) (i : Identifier) : Checkable :=
  {| row_model := row_model o;
     pk := pk o;
     row_tournament := row_tournament o;
     row_categories := row_categories o;
     checkin_identifier := Some i |}.

(** A check-in event. The identifier is referred to by its code. The actor
    of the spec's event record is not carried by the message the view
    builds and is left out. *)
Record Event : Type := {
  event_identifier : string;
  event_state : bool;
  event_time : Z;
}.

(** The message handed to [CheckInEventConsumer.receive_json]. *)
Record Message : Type := {
  msg_barcodes : list string;
  msg_status : bool;
  msg_type : string;
  msg_component_id : option string;
}.

Record DB : Type := {
  objects : list Checkable;
  events : list Event;
  now : Z;
  entropy : list string;
  outbox : list Message;
}.

(** ** State and exceptions *)

Definition M (A : Type) : Type := DB -> DB * result A.

Definition ret {A : Type} (a : A) : M A := fun db => (db, Ok a).

Definition raise {A : Type} (e : Exception) : M A := fun db => (db, Raise e).

Definition bind {A B : Type} (m : M A) (k : A -> M B) : M B :=
  fun db =>
    match m db with
    | (db', Ok a) => k a db'
    | (db', Raise e) => (db', Raise e)
    end.

Definition lift {A : Type} (r : result A) : M A := fun db => (db, r).

Notation "x <- m ;; k" := (bind m (fun x => k))
  (at level 100, m at next level, right associativity).

Fixpoint for_each {A : Type} (f : A -> M unit) (l : list A) : M unit :=
  match l with
  | [] => ret tt
  | a :: rest => _ <- f a ;; for_each f rest
  end.

(** ** Querysets *)

(** A queryset is lazy: it is the conjunction of its filters, and reads the
    table when it is evaluated. *)
Definition QuerySet : Type := Checkable -> bool.

Definition QuerySet_eval (qs : QuerySet) (db : DB) : list Checkable :=
  List.filter qs (objects db).

(** [qs.get()] *)
Definition QuerySet_get (qs : QuerySet) : M Checkable :=
  fun db =>
    match QuerySet_eval qs db with
    | [] => (db, Raise DoesNotExist)
    | [o] => (db, Ok o)
    | _ :: _ :: _ => (db, Raise MultipleObjectsReturned)
    end.

(** [rest_framework.generics.get_object_or_404]: a queryset without a
    match ends in [Http404('No <object_name> matches the given query.')],
    where the name is that of the queryset's model. *)
Definition get_object_or_404 (object_name : string) (qs : QuerySet)
  : M Checkable :=
  fun db =>
    match QuerySet_get qs db with
    | (db', Raise DoesNotExist) =>
      (db', Raise (Http404 ("No " ++ object_name
                              ++ " matches the given query.")))
    | other => other
    end.

(** A model class gives access to its table through its manager,
    [Model.objects]; it has no other queryset attribute. *)
Definition Model_getattr (m : Model) (name : string) : result QuerySet :=
  if String.eqb name "objects" then Ok (fun o => Model_eqb (row_model o) m)
  else Raise (AttributeError name).

(** ** Absent collaborators of the check-in views *)

(** Modelled from the spec: the log is append-only, so the newest event of
    an identifier is the last one appended for it. This keeps, of every
    identifier, that event only. *)
Fixpoint newest_per_identifier (log : list Event) : list Event :=
  match log with
  | [] => []
  | e :: later =>
    if existsb (fun e' => String.eqb (event_identifier e')
                                     (event_identifier e)) later
    then newest_per_identifier later
    else e :: newest_per_identifier later
  end.

(** Modelled from the spec: an event is within the freshness window of now
    when it is stamped no earlier than the window's length before now. *)
Definition within_window (t window : Z) (e : Event) : bool :=
  Z.leb (t - window) (event_time e).

(** Modelled from the spec: [get_unexpired_checkins] ([checkins/utils.py])
    is not part of the source at hand. The spec gives the status the views
    derive through it: the state of an identifier's newest event when that
    event lies within the freshness window of now, and false otherwise. The
    query is therefore the set of check-ins still in force: the events that
    are the newest of their identifier, carry state true, and are within
    the window named by the preference. It only reads the store. *)

Definition get_unexpired_checkins (t : Tournament) (window_pref : string)
  : M (list Event) :=
  fun db =>
    match pref t window_pref with
    | PInt window =>
      (db, Ok (List.filter
                 (fun e => event_state e && within_window (now db) window e)
                 (newest_per_identifier (events db))))
    | _ => (db, Raise TypeError)
    end.

(** Modelled from the spec: [RecordEvent] of the check-in registry appends
    one event stamped with the current time, always succeeds, and marks the
    identifier for broadcast. *)
Definition RecordEvent (code : string) (st : bool) : M unit :=
  fun db =>
    ({| objects := objects db;
        events := events db ++ [ {| event_identifier := code;
                                    event_state := st;
                                    event_time := now db |} ];
        now := now db;
        entropy := entropy db;
        outbox := outbox db |}, Ok tt).

(** Modelled from the spec: [Publish] hands the event to the transport,
    kept here as the list of messages sent out. *)
Definition Publish (m : Message) : M unit :=
  fun db =>
    ({| objects := objects db;
        events := events db;
        now := now db;
        entropy := entropy db;
        outbox := outbox db ++ [m] |}, Ok tt).

(** Modelled from the spec: [CheckInEventConsumer.receive_json]
    ([checkins/consumers.py]) is not part of the source at hand. It records
    one event per barcode of the message, with the message's status, and
    passes the message on to the subscribers. *)
Definition CheckInEventConsumer_receive_json (m : Message) : M unit :=
  _ <- for_each (fun code => RecordEvent code (msg_status m))
                (msg_barcodes m) ;;
  Publish m.

(** Modelled from the spec: the identifier class related to a model class,
    [model.checkin_identifier.related.related_model], is declared in
    [checkins/models.py], not part of the source at hand. It is reduced to
    what the views read of it, its [instance_attr], which names the
    resource kind: people or venues. No check-in view has [Team] as its
    model. *)
Definition related_model (m : Model) : string :=
  match m with
  | Venue => "venue"
  | Adjudicator | Speaker | Team => "person"
  end.

(** Modelled from the spec: drawing a code. Candidates are taken from the
    random source until one does not collide with a code in use. *)
Fixpoint generate_identifier (taken : list string) (source : list string)
  : option (string * list string) :=
  match source with
  | [] => None
  | c :: rest =>
    if existsb (String.eqb c) taken then generate_identifier taken rest
    else Some (c, rest)
  end.

Definition barcodes_in_use (rows : list Checkable) : list string :=
  flat_map (fun o => match checkin_identifier o with
                     | Some i => [barcode i]
                     | None => []
                     end) rows.

(** Modelled from the spec: one pass over the table. A member of the set
    that lacks an identifier receives a fresh one; every other row is left
    as it is. *)
Fixpoint attach_identifiers (kind : string) (qs : QuerySet)
    (rows : list Checkable) (taken source : list string)
  : option (list Checkable * list string) :=
  match rows with
  | [] => Some ([], source)
  | o :: rest =>
    match checkin_identifier o with
    | None =>
      if qs o then
        match generate_identifier taken source with
        | None => None
        | Some (code, source') =>
          match attach_identifiers kind qs rest (code :: taken) source' with
          | None => None
          | Some (rest', source'') =>
            Some (with_identifier o {| barcode := code;
                                       instance_attr := kind |}
                    :: rest', source'')
          end
        end
      else
        match attach_identifiers kind qs rest taken source with
        | None => None
        | Some (rest', source') => Some (o :: rest', source')
        end
    | Some _ =>
      match attach_identifiers kind qs rest taken source with
      | None => None
      | Some (rest', source') => Some (o :: rest', source')
      end
    end
  end.

(** Modelled from the spec: [create_identifiers] ([checkins/utils.py]) is
    not part of the source at hand. For each member of the set lacking an
    identifier it generates one, retrying on collision; members already
    identified are left untouched; it fails with NotFound when the set is
    empty. The write is all-or-nothing: when no free code can be drawn the
    store is left as it was. *)
Definition create_identifiers (kind : string) (qs : QuerySet) : M unit :=
  fun db =>
    match QuerySet_eval qs db with
    | [] => (db, Raise (Http404 "No objects"))
    | _ :: _ =>
      match attach_identifiers kind qs (objects db)
                               (barcodes_in_use (objects db)) (entropy db) with
      | None => (db, Raise IntegrityError)
      | Some (rows, source) =>
        ({| objects := rows;
            events := events db;
            now := now db;
            entropy := source;
            outbox := outbox db |}, Ok tt)
      end
    end.

(** ** Objects as the views pass them around *)

(** [broadcast_checkin] and [get_barcodes] take whatever object the caller
    hands over; attribute access decides at run time. *)
Inductive PyObject : Type :=
| ObjCheckable (o : Checkable)
| ObjIdentifier (i : Identifier).

(** [obj.checkin_identifier] *)
Definition getattr_checkin_identifier (obj : PyObject) : result Identifier :=
  match obj with
  | ObjCheckable o =>
    match checkin_identifier o with
    | Some i => Ok i
    | None => Raise RelatedObjectDoesNotExist
    end
  | ObjIdentifier _ => Raise (AttributeError "checkin_identifier")
  end.

(** [hasattr(obj, 'checkin_identifier')] *)
Definition hasattr_checkin_identifier (o : Checkable) : bool :=
  match checkin_identifier o with
  | Some _ => true
  | None => false
  end.

(** The target of [reverse(viewname, kwargs, request, format)]. *)
Record ObjectRef : Type := {
  ref_viewname : string;
  ref_tournament_slug : string;
  ref_pk : Z;
  ref_format : option string;
}.

Record Response : Type := {
  resp_object : ObjectRef;
  resp_barcode : string;
  resp_checked : bool;
}.

Inductive Method : Type :=
| GET
| PUT
| DELETE
| PATCH
| POST.

(** [events.filter(identifier=i)] *)
Definition filter_identifier (i : Identifier) (qs : list Event) : list Event :=
  List.filter (fun e => String.eqb (event_identifier e) (barcode i)) qs.

(** [qs.exists()] *)
Definition exists_ {A : Type} (qs : list A) : bool :=
  match qs with
  | [] => false
  | _ :: _ => true
  end.

(** A permission class of the framework, by its request-level rule
    [has_permission(request, view)]; of the view it may read the
    tournament. *)
Definition PermissionClass : Type := Request -> Tournament -> bool.

(** ** BaseCheckinsView *)

Module BaseCheckinsView.

(** The view instance: the request context resolved by the mixins and the
    class attributes set by the subclasses. The permission classes are the
    ones the view inherits from [AdministratorAPIMixin] ([api/mixins.py]);
    that mixin is not part of the source at hand, so they are a field that
    every property below leaves open. *)
Record View : Type := {
  permission_classes : list PermissionClass;
  request : Request;
  tournament : Tournament;
  kwargs_pk : Z;
  model : Model;
  object_api_view : string;
  window_preference_pref : string;
  tournament_field : string;
}.

(** Every permission class of the view admits the request. *)
Definition permitted (self : View) : bool :=
  forallb (fun permission => permission (request self) (tournament self))
          (permission_classes self).

(** [APIView.check_permissions] of the framework, run before the handler
    of the request's method: the request is refused unless every
    permission class admits it. *)
Definition check_permissions (self : View) : M unit :=
  if permitted self then ret tt
  else raise PermissionDenied.

(** [APIView.check_object_permissions] of the framework. The permission
    classes are taken by their request-level rule; the object-level rule a
    class has by default lets every object through. *)
Definition check_object_permissions (self : View) (obj : Checkable)
  : M unit :=
  ret tt.

(** [TournamentAPIMixin.lookup_kwargs]: the rows of the view's
    tournament. *)
Definition lookup_kwargs (self : View) : QuerySet :=
  fun o => Z.eqb (row_tournament o) (tournament_id (tournament self)).

Definition get_queryset (self : View) : result QuerySet :=
  match Model_getattr (model self) "objects" with
  | Ok table => Ok (fun o => table o && lookup_kwargs self o)
  | Raise e => Raise e
  end.

Definition get_object_queryset (self : View) : result QuerySet :=
  match get_queryset self with
  | Ok qs => Ok (fun o => qs o && Z.eqb (pk o) (kwargs_pk self))
  | Raise e => Raise e
  end.

Definition get_object (self : View) : M Checkable :=
  qs <- lift (get_object_queryset self) ;;
  obj <- get_object_or_404 (Model_object_name (model self)) qs ;;
  _ <- check_object_permissions self obj ;;
  if hasattr_checkin_identifier obj then ret obj
  else raise (Http404 "No identifier").

Definition get_barcodes (obj : PyObject) : result (list string) :=
  match getattr_checkin_identifier obj with
  | Ok i => Ok [barcode i]
  | Raise e => Raise e
  end.

Definition get_response_dict (self : View) (obj : Checkable)
    (checked : bool) : M Response :=
  let object :=
    {| ref_viewname := object_api_view self;
       ref_tournament_slug := slug (tournament self);
       ref_pk := pk obj;
       ref_format := None |} in
  i <- lift (getattr_checkin_identifier (ObjCheckable obj)) ;;
  ret {| resp_object := object;
         resp_barcode := barcode i;
         resp_checked := checked |}.

(** [get_unexpired_checkins(...).filter(identifier=obj.checkin_identifier)
    .exists()] *)
Definition current_status (self : View) (obj : Checkable) : M bool :=
  unexpired <- get_unexpired_checkins (tournament self)
                                      (window_preference_pref self) ;;
  i <- lift (getattr_checkin_identifier (ObjCheckable obj)) ;;
  ret (exists_ (filter_identifier i unexpired)).

Definition get (self : View) : M Response :=
  obj <- get_object self ;;
  checked <- current_status self obj ;;
  get_response_dict self obj checked.

Section Handlers.

(** [CheckInEventConsumer().receive_json]: the real-time collaborator
    the write handlers call into. *)
Variable receive_json : Message -> M unit.

Definition broadcast_checkin (self : View) (obj : PyObject)
    (check : bool) : M unit :=
  barcodes <- lift (get_barcodes obj) ;;
  i <- lift (getattr_checkin_identifier obj) ;;
  receive_json {| msg_barcodes := barcodes;
                  msg_status := check;
                  msg_type := instance_attr i;
                  msg_component_id := None |}.

(** Checks out *)
Definition delete (self : View) : M Response :=
  obj <- get_object self ;;
  _ <- broadcast_checkin self (ObjCheckable obj) false ;;
  get_response_dict self obj false.

(** Checks in *)
Definition put (self : View) : M Response :=
  obj <- get_object self ;;
  _ <- broadcast_checkin self (ObjCheckable obj) true ;;
  get_response_dict self obj true.

(** Toggles the check-in status *)
Definition patch (self : View) : M Response :=
  obj <- get_object self ;;
  check <- current_status self obj ;;
  i <- lift (getattr_checkin_identifier (ObjCheckable obj)) ;;
  _ <- broadcast_checkin self (ObjIdentifier i) (negb check) ;;
  get_response_dict self obj (negb check).

(** Creates an identifier *)
Definition post (self : View) : M Response :=
  obj <- lift (get_object_queryset self) ;;
  _ <- create_identifiers (related_model (model self)) obj ;;
  o <- QuerySet_get obj ;;
  get_response_dict self o false.

(** The framework's entry point: permissions first, then the handler of
    the request's method. *)
Definition dispatch (method : Method) (self : View) : M Response :=
  _ <- check_permissions self ;;
  match method with
  | GET => get self
  | PUT => put self
  | DELETE => delete self
  | PATCH => patch self
  | POST => post self
  end.

End Handlers.

End BaseCheckinsView.

Definition AdjudicatorCheckinsView (permissions : list PermissionClass)
    (rq : Request) (t : Tournament) (k : Z) : BaseCheckinsView.View :=
  {| BaseCheckinsView.permission_classes := permissions;
     BaseCheckinsView.request := rq;
     BaseCheckinsView.tournament := t;
     BaseCheckinsView.kwargs_pk := k;
     BaseCheckinsView.model := Adjudicator;
     BaseCheckinsView.object_api_view := "api-adjudicator-detail";
     BaseCheckinsView.window_preference_pref := "checkin_window_people";
     BaseCheckinsView.tournament_field := "tournament" |}.

Definition SpeakerCheckinsView (permissions : list PermissionClass)
    (rq : Request) (t : Tournament) (k : Z) : BaseCheckinsView.View :=
  {| BaseCheckinsView.permission_classes := permissions;
     BaseCheckinsView.request := rq;
     BaseCheckinsView.tournament := t;
     BaseCheckinsView.kwargs_pk := k;
     BaseCheckinsView.model := Speaker;
     BaseCheckinsView.object_api_view := "api-speaker-detail";
     BaseCheckinsView.window_preference_pref := "checkin_window_people";
     BaseCheckinsView.tournament_field := "team__tournament" |}.

Definition VenueCheckinsView (permissions : list PermissionClass)
    (rq : Request) (t : Tournament) (k : Z) : BaseCheckinsView.View :=
  {| BaseCheckinsView.permission_classes := permissions;
     BaseCheckinsView.request := rq;
     BaseCheckinsView.tournament := t;
     BaseCheckinsView.kwargs_pk := k;
     BaseCheckinsView.model := Venue;
     BaseCheckinsView.object_api_view := "api-venue-detail";
     BaseCheckinsView.window_preference_pref := "checkin_window_venues";
     BaseCheckinsView.tournament_field := "tournament" |}.

(** ** BaseStandingsView *)

Module BaseStandingsView.

Record View : Type := {
  tournament : Tournament;
  query_params_category : option Z;
  model : Model;
  tournament_field : string;
  access_preference : string;
}.

(** [qs = self.model.filter(...)]: the attribute is looked up on the
    model class itself, not on its manager. *)
Definition get_queryset (self : View) : result QuerySet :=
  match Model_getattr (model self) "filter" with
  | Raise e => Raise e
  | Ok table =>
    let qs : QuerySet :=
      fun o => table o
               && Z.eqb (row_tournament o) (tournament_id (tournament self)) in
    match query_params_category self with
    | Some category =>
      Ok (fun o => qs o && existsb (Z.eqb category) (row_categories o))
    | None => Ok qs
    end
  end.

Section Get.

(** [standings.base.Standings] and the serializer class of the
    subclass, neither part of the source at hand. *)
Variable Ranked : Type.
Variable Data : Type.
Variable Standings : list Checkable -> Ranked.
Variable get_serializer : Ranked -> Data.

Definition get (self : View) : M Data :=
  qs <- lift (get_queryset self) ;;
  fun db => (db, Ok (get_serializer (Standings (QuerySet_eval qs db)))).

End Get.

End BaseStandingsView.

Definition SpeakerStandingsView (t : Tournament) (category : option Z)
  : BaseStandingsView.View :=
  {| BaseStandingsView.tournament := t;
     BaseStandingsView.query_params_category := category;
     BaseStandingsView.model := Speaker;
     BaseStandingsView.tournament_field := "team__tournament";
     BaseStandingsView.access_preference := "speaker_tab_released" |}.

Definition TeamStandingsView (t : Tournament) (category : option Z)
  : BaseStandingsView.View :=
  {| BaseStandingsView.tournament := t;
     BaseStandingsView.query_params_category := category;
     BaseStandingsView.model := Team;
     BaseStandingsView.tournament_field := "tournament";
     BaseStandingsView.access_preference := "team_tab_released" |}.

(** ** Reference definitions in the words of the specification *)

(** The newest event of an identifier: the last one appended for it. *)
Fixpoint newest_event (code : string) (log : list Event) : option Event :=
  match log with
  | [] => None
  | e :: later =>
    match newest_event code later with
    | Some e' => Some e'
    | None => if String.eqb (event_identifier e) code then Some e else None
    end
  end.

(** Current status of an identifier: the state of its newest event if that
    event's timestamp is within the freshness window relative to now, else
    false. *)
Definition CurrentStatus (code : string) (window : Z) (db : DB) : bool :=
  match newest_event code (events db) with
  | Some e => if within_window (now db) window e then event_state e else false
  | None => false
  end.

(** What a check-in handler returns and what it leaves in the store. *)
Definition response_of (self : BaseCheckinsView.View) (o : Checkable)
    (i : Identifier) (checked : bool) : Response :=
  {| resp_object :=
       {| ref_viewname := BaseCheckinsView.object_api_view self;
          ref_tournament_slug := slug (BaseCheckinsView.tournament self);
          ref_pk := pk o;
          ref_format := None |};
     resp_barcode := barcode i;
     resp_checked := checked |}.

Definition message_of (i : Identifier) (check : bool) : Message :=
  {| msg_barcodes := [barcode i];
     msg_status := check;
     msg_type := instance_attr i;
     msg_component_id := None |}.

(** The checkable a check-in request addresses: the only row of the view's
    model and tournament with the primary key of the URL. *)
Definition addresses (self : BaseCheckinsView.View) (db : DB)
    (o : Checkable) : Prop :=
  match BaseCheckinsView.get_object_queryset self with
  | Ok qs => QuerySet_eval qs db = [o]
  | Raise _ => False
  end.

(** A real-time collaborator that raises on every message it is handed. *)
Definition failing_receive_json (m : Message) : M unit :=
  raise (ChannelError "channel layer unavailable").

(** ** A small tournament used in the examples *)

Definition round1 : Round := {| round_id := 1; draw_status := STATUS_RELEASED |}.
Definition round2 : Round := {| round_id := 2; draw_status := STATUS_RELEASED |}.

Definition example_prefs (name : string) : PrefValue :=
  if String.eqb name "public_draw" then PStr "current"
  else if String.eqb name "checkin_window_venues" then PInt 12
  else if String.eqb name "checkin_window_people" then PInt 8
  else PBool false.

Definition example_tournament : Tournament :=
  {| tournament_id := 1;
     slug := "demo";
     current_round := round1;
     pref := example_prefs |}.

Definition admin : Request := {| user := {| is_administrator := true |} |}.
Definition visitor : Request := {| user := {| is_administrator := false |} |}.

(** Input of the examples only: views given a single permission class,
    one that admits administrators. *)
Definition example_permissions : list PermissionClass :=
  [fun rq _ => is_administrator (user rq)].

Definition venue_B1 : Checkable :=
  {| row_model := Venue;
     pk := 7;
     row_tournament := 1;
     row_categories := [];
     checkin_identifier :=
       Some {| barcode := "B1"; instance_attr := "venue" |} |}.

Definition venue_bare : Checkable :=
  {| row_model := Venue;
     pk := 7;
     row_tournament := 1;
     row_categories := [];
     checkin_identifier := None |}.

Definition example_db : DB :=
  {| objects := [venue_B1];
     events := [];
     now := 100;
     entropy := ["B2"; "B3"];
     outbox := [] |}.

Definition bare_db : DB :=
  {| objects := [venue_bare];
     events := [];
     now := 100;
     entropy := ["B1"; "B2"];
     outbox := [] |}.

(** What the spec-modelled consumer leaves in the store for one barcode. *)
Definition recorded (db : DB) (i : Identifier) (st : bool) : DB :=
  {| objects := objects db;
     events := events db ++ [ {| event_identifier := barcode i;
                                 event_state := st;
                                 event_time := now db |} ];
     now := now db;
     entropy := entropy db;
     outbox := outbox db ++ [message_of i st] |}.

(** A sequence of status requests, each by its own view instance, run one
    after the other against the store. *)
Fixpoint run_gets (receive_json : Message -> M unit)
    (views : list BaseCheckinsView.View) (db : DB) : DB :=
  match views with
  | [] => db
  | self :: rest =>
    run_gets receive_json rest
             (fst (BaseCheckinsView.dispatch receive_json GET self db))
  end.

(** No row of the view's model and tournament has the primary key of the
    URL. *)
Definition unknown (self : BaseCheckinsView.View) (db : DB) : Prop :=
  forall o, In o (objects db) ->
    ~ (row_model o = BaseCheckinsView.model self
       /\ row_tournament o = tournament_id (BaseCheckinsView.tournament self)
       /\ pk o = BaseCheckinsView.kwargs_pk self).

Definition identifier_B1 : Identifier :=
  {| barcode := "B1"; instance_attr := "venue" |}.

Definition venue_view : BaseCheckinsView.View :=
  VenueCheckinsView example_permissions admin example_tournament 7.

(** The venue was checked in at time 10; the venue window is 12 and the
    clock reads 100. *)
Definition expired_db : DB :=
  {| objects := [venue_B1];
     events := [ {| event_identifier := "B1";
                    event_state := true;
                    event_time := 10 |} ];
     now := 100;
     entropy := [];
     outbox := [] |}.

(** The log is in the order of its timestamps: no event is stamped later
    than one appended after it. *)
Fixpoint time_ordered (log : list Event) : Prop :=
  match log with
  | [] => True
  | e :: later =>
    (forall e', In e' later -> event_time e <= event_time e')
    /\ time_ordered later
  end.

(** The outcome of a request made after another one. *)
Definition and_then {A B : Type} (first : DB * result A) (next : M B)
  : DB * result B :=
  next (fst first).

(** ** FeedbackQuestionViewSet *)

(** A row of the feedback question table, with the two flags the view
    filters on. *)
Record FeedbackQuestion : Type := {
  question_id : Z;
  question_tournament : Z;
  from_adj : bool;
  from_team : bool;
}.

(** The truth value Python gives to [query_params.get(name)]: a missing
    parameter ([None]) and the empty string are false, every other string
    is true. *)
Definition truthy (v : option string) : bool :=
  match v with
  | None => false
  | Some s => negb (String.eqb s "")
  end.

Module FeedbackQuestionViewSet.

Record View : Type := {
  tournament : Tournament;
  query_params : string -> option string;
}.

Section GetQueryset.

(** [super().get_queryset()], the queryset of [TournamentAPIMixin]
    ([api/mixins.py]), whatever it selects. *)
Variable super_get_queryset : View -> FeedbackQuestion -> bool.

Definition get_queryset (self : View) : FeedbackQuestion -> bool :=
  let q := super_get_queryset self in
  let q :=
    if truthy (query_params self "from_adj")
    then (fun x => q x && Bool.eqb (from_adj x) true)
    else q in
  let q :=
    if truthy (query_params self "from_team")
    then (fun x => q x && Bool.eqb (from_team x) true)
    else q in
  q.

End GetQueryset.

End FeedbackQuestionViewSet.

(** ** InstitutionViewSet *)

(** An institution with the tournaments of the adjudicators and of the
    teams that belong to it (the reverse relations [adjudicator] and
    [team], each followed to its [tournament]). *)
Record Institution : Type := {
  institution_id : Z;
  adjudicator_tournaments : list Z;
  team_tournaments : list Z;
}.

Definition Institution_eq_dec (a b : Institution) : {a = b} + {a <> b}.
Proof.
  decide equality; try apply (List.list_eq_dec Z.eq_dec); apply Z.eq_dec.
Defined.

(** The related rows an outer join pairs a row with: each of them, or a
    single null when there is none. *)
Definition outer_join (related : list Z) : list (option Z) :=
  match related with
  | [] => [None]
  | _ :: _ => map Some related
  end.

Definition column_is (t : Z) (c : option Z) : bool :=
  match c with
  | Some t' => Z.eqb t' t
  | None => false
  end.

Module InstitutionViewSet.

(** The rows of [institution] joined with its adjudicators and its teams:
    one row per pair. *)
Definition joined (table : list Institution)
  : list (Institution * (option Z * option Z)) :=
  flat_map
    (fun i => map (fun pair => (i, pair))
                  (list_prod (outer_join (adjudicator_tournaments i))
                             (outer_join (team_tournaments i))))
    table.

(** [Institution.objects.filter(Q(adjudicator__tournament=self.tournament)
    | Q(team__tournament=self.tournament)).distinct()] *)
Definition get_queryset (tournament : Tournament)
    (table : list Institution) : list Institution :=
  nodup Institution_eq_dec
    (map fst
       (List.filter
          (fun row =>
             column_is (tournament_id tournament) (fst (snd row))
             || column_is (tournament_id tournament) (snd (snd row)))
          (joined table))).

End InstitutionViewSet.

(** ** Further examples *)

(** A tournament whose draw preference holds a value outside the three
    choices. *)
Definition odd_tournament : Tournament :=
  {| tournament_id := 2;
     slug := "odd";
     current_round := round1;
     pref := fun _ => PStr "later" |}.

Definition round_draft : Round :=
  {| round_id := 1; draw_status := STATUS_DRAFT |}.

Definition all_released_tournament : Tournament :=
  {| tournament_id := 3;
     slug := "open";
     current_round := round1;
     pref := fun _ => PStr "all-released" |}.

(** A second venue of the example tournament, with its own identifier. *)
Definition venue_B9 : Checkable :=
  {| row_model := Venue;
     pk := 9;
     row_tournament := 1;
     row_categories := [];
     checkin_identifier :=
       Some {| barcode := "B9"; instance_attr := "venue" |} |}.

Definition identifier_B9 : Identifier :=
  {| barcode := "B9"; instance_attr := "venue" |}.

Definition two_venues_db : DB :=
  {| objects := [venue_B1; venue_B9];
     events := [ {| event_identifier := "B9";
                    event_state := true;
                    event_time := 95 |} ];
     now := 100;
     entropy := [];
     outbox := [] |}.

(** A request for a venue the example tournament does not have. *)
Definition unknown_venue_view : BaseCheckinsView.View :=
  VenueCheckinsView example_permissions admin example_tournament 8.

Definition venue9_view : BaseCheckinsView.View :=
  VenueCheckinsView example_permissions admin example_tournament 9.

Definition question_table : list FeedbackQuestion :=
  [ {| question_id := 1; question_tournament := 1;
       from_adj := true; from_team := false |};
    {| question_id := 2; question_tournament := 1;
       from_adj := false; from_team := true |};
    {| question_id := 3; question_tournament := 1;
       from_adj := true; from_team := true |} ].

Definition questions_of_tournament (self : FeedbackQuestionViewSet.View)
    (q : FeedbackQuestion) : bool :=
  Z.eqb (question_tournament q)
        (tournament_id (FeedbackQuestionViewSet.tournament self)).

Definition from_adj_false_request : FeedbackQuestionViewSet.View :=
  {| FeedbackQuestionViewSet.tournament := example_tournament;
     FeedbackQuestionViewSet.query_params :=
       fun name => if String.eqb name "from_adj" then Some "false"
                   else None |}.

Definition institution_table : list Institution :=
  [ {| institution_id := 1;
       adjudicator_tournaments := [1; 1];
       team_tournaments := [1; 2; 1] |};
    {| institution_id := 2;
       adjudicator_tournaments := [2];
       team_tournaments := [] |};
    {| institution_id := 3;
       adjudicator_tournaments := [];
       team_tournaments := [1] |} ].

(** The row is one the view's lookup selects: of the view's model, in the
    view's tournament, with the primary key of the URL. *)
Definition in_scope (self : BaseCheckinsView.View) (o : Checkable) : Prop :=
  row_model o = BaseCheckinsView.model self
  /\ row_tournament o = tournament_id (BaseCheckinsView.tournament self)
  /\ pk o = BaseCheckinsView.kwargs_pk self.

(** The reference every check-in response carries for its object. *)
Definition reference_of (self : BaseCheckinsView.View) : ObjectRef :=
  {| ref_viewname := BaseCheckinsView.object_api_view self;
     ref_tournament_slug := slug (BaseCheckinsView.tournament self);
     ref_pk := BaseCheckinsView.kwargs_pk self;
     ref_format := None |}.

(** ** The transport behind the consumer *)

(** Modelled from the spec: the real-time transport accepts the published
    event or fails; [Publish] is best-effort, and a failure of the dispatch
    is discarded, never surfaced to the caller. (The logging of the failure
    is not modelled.) *)
Definition Publish_via (transport : Message -> result unit) (m : Message)
  : M unit :=
  fun db =>
    match transport m with
    | Ok _ => Publish m db
    | Raise _ => (db, Ok tt)
    end.

(** Modelled from the spec: [CheckInEventConsumer.receive_json] over a
    transport that may fail. The events are recorded first ([RecordEvent]
    always succeeds), then the message is published best-effort. *)
Definition CheckInEventConsumer_receive_json_via
    (transport : Message -> result unit) (m : Message) : M unit :=
  _ <- for_each (fun code => RecordEvent code (msg_status m))
                (msg_barcodes m) ;;
  Publish_via transport m.

(** A transport that is down. *)
Definition transport_down (m : Message) : result unit :=
  Raise (ChannelError "channel layer unavailable").

(** What the consumer leaves in the store for one barcode when the
    transport refused the message: the event, and nothing sent out. *)
Definition recorded_undelivered (db : DB) (i : Identifier) (st : bool) : DB :=
  {| objects := objects db;
     events := events db ++ [ {| event_identifier := barcode i;
                                 event_state := st;
                                 event_time := now db |} ];
     now := now db;
     entropy := entropy db;
     outbox := outbox db |}.

(** The store after the clock has moved on by [d]. *)
Definition later (d : Z) (db : DB) : DB :=
  {| objects := objects db;
     events := events db;
     now := now db + d;
     entropy := entropy db;
     outbox := outbox db |}.

(** * Properties *)

(** ** The pairing gate *)

Lemma get_round_status_make (t : Tournament) (r : Round) :
  PairingViewSet.Permission.get_round_status (PairingViewSet.make t r)
  = Ok (DrawStatus_eqb (draw_status r) STATUS_RELEASED).
Proof. reflexivity. Qed.

Lemma DrawStatus_eqb_spec (a b : DrawStatus) :
  DrawStatus_eqb a b = true <-> a = b.
Proof. destruct a, b; simpl; split; congruence. Qed.

(** A preference value outside the three choices is a [KeyError], for a
    requester who is not an administrator. *)
Lemma get_tournament_preference_KeyError (t : Tournament) (r : Round)
    (key : string) :
  pref t "public_draw" = PStr key ->
  key <> "off" -> key <> "current" -> key <> "all-released" ->
  PairingViewSet.Permission.get_tournament_preference
    (PairingViewSet.make t r) "retrieve" = Raise KeyError.
Proof.
  intros Hpref Hoff Hcur Hall.
  unfold PairingViewSet.Permission.get_tournament_preference.
  rewrite get_round_status_make. simpl PairingViewSet.tournament.
  simpl PairingViewSet.access_preference. rewrite Hpref.
  destruct (Z.eqb _ _); cbv zeta; by simplify_map_eq.
Qed.

(** C1. For every release preference, requester role and round state, the
    decision of [PairingViewSet.Permission] is the gate's truth table: an
    administrator is granted; otherwise [off] denies, [current] grants iff
    the round is the tournament's current round and its draw is released,
    and [all-released] grants iff its draw is released. *)
Theorem pairing_permission_is_Visible (p : ReleasePreference)
    (request : Request) (t : Tournament) (r : Round) :
  pref t "public_draw" = PStr (ReleasePreference_key p) ->
  PairingViewSet.Permission.has_permission request (PairingViewSet.make t r)
  = Ok (Visible p (is_administrator (user request))
                  (Z.eqb (round_id (current_round t)) (round_id r))
                  (DrawStatus_eqb (draw_status r) STATUS_RELEASED)).
Proof.
  intros Hpref.
  unfold PairingViewSet.Permission.has_permission, Visible.
  destruct (is_administrator (user request)); [reflexivity|].
  unfold PairingViewSet.Permission.get_tournament_preference.
  rewrite get_round_status_make. simpl PairingViewSet.tournament.
  simpl PairingViewSet.access_preference. simpl PairingViewSet.round.
  rewrite Hpref.
  destruct (Z.eqb (round_id (current_round t)) (round_id r));
    destruct p; cbv zeta; simpl ReleasePreference_key;
    by simplify_map_eq.
Qed.

Lemma pairing_permission_is_Visible_witness :
  PairingViewSet.Permission.has_permission
    visitor (PairingViewSet.make example_tournament round2)
  = Ok (Visible pref_current false false true).
Proof.
  apply (pairing_permission_is_Visible pref_current visitor
           example_tournament round2).
  reflexivity.
Defined.

(** The five rows the specification lists. *)
Example Visible_rows :
  (forall c rel, Visible pref_off false c rel = false)
  /\ (forall p c rel, Visible p true c rel = true)
  /\ Visible pref_current false true true = true
  /\ Visible pref_current false false true = false
  /\ Visible pref_all_released false false true = true.
Proof. repeat split; intros; try reflexivity. Qed.

(** ** Check-in endpoints: looking up the addressed checkable *)

Ltac monad_unfold := unfold bind, lift, ret, raise in *.

Lemma get_object_queryset_Ok (self : BaseCheckinsView.View) :
  BaseCheckinsView.get_object_queryset self
  = Ok (fun o =>
          Model_eqb (row_model o) (BaseCheckinsView.model self)
          && BaseCheckinsView.lookup_kwargs self o
          && Z.eqb (pk o) (BaseCheckinsView.kwargs_pk self)).
Proof. reflexivity. Qed.

Lemma addresses_eval (self : BaseCheckinsView.View) (db : DB) (o : Checkable) :
  addresses self db o ->
  exists qs, BaseCheckinsView.get_object_queryset self = Ok qs
             /\ QuerySet_eval qs db = [o].
Proof.
  unfold addresses. rewrite get_object_queryset_Ok. intros H.
  eexists. split; [reflexivity | exact H].
Qed.

Lemma get_object_found (self : BaseCheckinsView.View) (db : DB)
    (o : Checkable) (i : Identifier) :
  addresses self db o ->
  checkin_identifier o = Some i ->
  BaseCheckinsView.get_object self db = (db, Ok o).
Proof.
  intros Ha Hi. destruct (addresses_eval _ _ _ Ha) as [qs [Hqs Hev]].
  unfold BaseCheckinsView.get_object. rewrite Hqs.
  unfold BaseCheckinsView.check_object_permissions, get_object_or_404,
    QuerySet_get, hasattr_checkin_identifier.
  monad_unfold. rewrite Hev, Hi. reflexivity.
Qed.

(** Whatever [get_object] returns owns an identifier, and the store is not
    touched by the lookup. *)
Lemma get_object_inv (self : BaseCheckinsView.View) (db db' : DB)
    (r : result Checkable) :
  BaseCheckinsView.get_object self db = (db', r) ->
  db' = db
  /\ forall o, r = Ok o -> exists i, checkin_identifier o = Some i.
Proof.
  unfold BaseCheckinsView.get_object. rewrite get_object_queryset_Ok.
  unfold BaseCheckinsView.check_object_permissions, get_object_or_404,
    QuerySet_get, hasattr_checkin_identifier.
  monad_unfold.
  destruct (QuerySet_eval _ db) as [|x [|y l]].
  - intros [= <- <-]. split; [reflexivity | discriminate].
  - destruct (checkin_identifier x) as [i|] eqn:Hx.
    + intros [= <- <-]. split; [reflexivity|].
      intros o [= <-]. eauto.
    + intros [= <- <-]. split; [reflexivity | discriminate].
  - intros [= <- <-]. split; [reflexivity | discriminate].
Qed.

Lemma get_response_dict_identified (self : BaseCheckinsView.View)
    (db : DB) (o : Checkable) (i : Identifier) (checked : bool) :
  checkin_identifier o = Some i ->
  BaseCheckinsView.get_response_dict self o checked db
  = (db, Ok (response_of self o i checked)).
Proof.
  intros Hi. unfold BaseCheckinsView.get_response_dict. monad_unfold.
  simpl. rewrite Hi. reflexivity.
Qed.

(** ** The status derived from the log *)

Lemma newest_event_None (code : string) (log : list Event) :
  newest_event code log = None
  <-> existsb (fun e => String.eqb (event_identifier e) code) log = false.
Proof.
  induction log as [|e later IH]; simpl.
  - tauto.
  - destruct (newest_event code later) as [e'|].
    + split; [discriminate|]. intros H.
      apply orb_false_iff in H as [_ H]. apply IH in H. discriminate.
    + destruct (String.eqb (event_identifier e) code); simpl.
      * split; discriminate.
      * split; intros _; [apply IH|]; reflexivity.
  Qed.

Lemma newest_event_identifier (code : string) (log : list Event) (e : Event) :
  newest_event code log = Some e -> event_identifier e = code.
Proof.
  induction log as [|x later IH]; simpl; [discriminate|].
  destruct (newest_event code later) as [e'|].
  - intros [= <-]. apply IH. reflexivity.
  - destruct (String.eqb (event_identifier x) code) eqn:Hx; [|discriminate].
    intros [= <-]. apply String.eqb_eq. exact Hx.
Qed.

(** Looking for an identifier among the check-ins in force is reading the
    newest event of that identifier. *)
Lemma exists_in_force (P : Event -> bool) (i : Identifier)
    (log : list Event) :
  exists_ (filter_identifier i (List.filter P (newest_per_identifier log)))
  = match newest_event (barcode i) log with
    | Some e => P e
    | None => false
    end.
Proof.
  unfold filter_identifier.
  induction log as [|e later IH]; [reflexivity|].
  cbn [newest_per_identifier newest_event].
  destruct (existsb (fun e' => String.eqb (event_identifier e')
                                          (event_identifier e)) later)
    eqn:Hlater.
  - rewrite IH.
    destruct (newest_event (barcode i) later) as [e'|] eqn:Hnew;
      [reflexivity|].
    destruct (String.eqb (event_identifier e) (barcode i)) eqn:He;
      [|reflexivity].
    apply String.eqb_eq in He. rewrite He in Hlater.
    apply newest_event_None in Hnew. congruence.
  - destruct (String.eqb (event_identifier e) (barcode i)) eqn:He.
    + assert (Hnone : newest_event (barcode i) later = None).
      { apply newest_event_None. apply String.eqb_eq in He.
        rewrite <- He. exact Hlater. }
      rewrite Hnone in *. cbn [List.filter].
      destruct (P e) eqn:HP.
      * cbn [List.filter]. rewrite He. reflexivity.
      * exact IH.
    + cbn [List.filter]. destruct (P e); cbn [List.filter];
        rewrite ?He; rewrite IH;
        destruct (newest_event (barcode i) later); reflexivity.
Qed.

Lemma current_status_is_CurrentStatus (self : BaseCheckinsView.View)
    (db : DB) (o : Checkable) (i : Identifier) (window : Z) :
  checkin_identifier o = Some i ->
  pref (BaseCheckinsView.tournament self)
       (BaseCheckinsView.window_preference_pref self) = PInt window ->
  BaseCheckinsView.current_status self o db
  = (db, Ok (CurrentStatus (barcode i) window db)).
Proof.
  intros Hi Hw.
  unfold BaseCheckinsView.current_status, get_unexpired_checkins.
  monad_unfold. rewrite Hw. simpl. rewrite Hi.
  rewrite exists_in_force. unfold CurrentStatus.
  destruct (newest_event (barcode i) (events db)) as [e|]; [|reflexivity].
  destruct (within_window (now db) window e), (event_state e); reflexivity.
Qed.

(** C3. For a checkable with an identifier, [get] answers with the state of
    the newest event of that identifier when that event lies within the
    freshness window of now, and with false otherwise; in particular a
    newest event stamped [T] is answered with false once now is past
    [T + window]. *)
Theorem get_reports_current_status (self : BaseCheckinsView.View) (db : DB)
    (o : Checkable) (i : Identifier) (window : Z) :
  addresses self db o ->
  checkin_identifier o = Some i ->
  pref (BaseCheckinsView.tournament self)
       (BaseCheckinsView.window_preference_pref self) = PInt window ->
  BaseCheckinsView.get self db
  = (db, Ok (response_of self o i (CurrentStatus (barcode i) window db)))
  /\ (forall e,
        newest_event (barcode i) (events db) = Some e ->
        event_time e + window < now db ->
        BaseCheckinsView.get self db = (db, Ok (response_of self o i false))).
Proof.
  intros Ha Hi Hw.
  assert (Hget : BaseCheckinsView.get self db
                 = (db, Ok (response_of self o i
                              (CurrentStatus (barcode i) window db)))).
  { unfold BaseCheckinsView.get, bind.
    rewrite (get_object_found _ _ _ _ Ha Hi).
    rewrite (current_status_is_CurrentStatus _ _ _ _ _ Hi Hw).
    apply get_response_dict_identified. exact Hi. }
  split; [exact Hget|].
  intros e He Hlate. rewrite Hget. unfold CurrentStatus. rewrite He.
  unfold within_window.
  destruct (Z.leb_spec (now db - window) (event_time e)); [lia|reflexivity].
Qed.

Lemma get_reports_current_status_witness :
  BaseCheckinsView.get venue_view expired_db
  = (expired_db, Ok (response_of venue_view venue_B1 identifier_B1 false)).
Proof.
  refine (proj2 (get_reports_current_status venue_view expired_db venue_B1
                   identifier_B1 12 _ _ _)
                {| event_identifier := "B1";
                   event_state := true;
                   event_time := 10 |} _ _);
    reflexivity.
Defined.

(** ** Check-in and check-out *)

Lemma put_runs_consumer (receive_json : Message -> M unit)
    (self : BaseCheckinsView.View) (db : DB) (o : Checkable)
    (i : Identifier) :
  addresses self db o ->
  checkin_identifier o = Some i ->
  BaseCheckinsView.put receive_json self db
  = match receive_json (message_of i true) db with
    | (db', Ok _) => (db', Ok (response_of self o i true))
    | (db', Raise e) => (db', Raise e)
    end.
Proof.
  intros Ha Hi. unfold BaseCheckinsView.put, bind.
  rewrite (get_object_found _ _ _ _ Ha Hi).
  unfold BaseCheckinsView.broadcast_checkin, BaseCheckinsView.get_barcodes.
  monad_unfold. simpl. rewrite Hi. fold (message_of i true).
  destruct (receive_json (message_of i true) db) as [db' [u|e]];
    [|reflexivity].
  apply get_response_dict_identified. exact Hi.
Qed.

Lemma delete_runs_consumer (receive_json : Message -> M unit)
    (self : BaseCheckinsView.View) (db : DB) (o : Checkable)
    (i : Identifier) :
  addresses self db o ->
  checkin_identifier o = Some i ->
  BaseCheckinsView.delete receive_json self db
  = match receive_json (message_of i false) db with
    | (db', Ok _) => (db', Ok (response_of self o i false))
    | (db', Raise e) => (db', Raise e)
    end.
Proof.
  intros Ha Hi. unfold BaseCheckinsView.delete, bind.
  rewrite (get_object_found _ _ _ _ Ha Hi).
  unfold BaseCheckinsView.broadcast_checkin, BaseCheckinsView.get_barcodes.
  monad_unfold. simpl. rewrite Hi. fold (message_of i false).
  destruct (receive_json (message_of i false) db) as [db' [u|e]];
    [|reflexivity].
  apply get_response_dict_identified. exact Hi.
Qed.

Lemma receive_json_records (i : Identifier) (st : bool) (db : DB) :
  CheckInEventConsumer_receive_json (message_of i st) db
  = (recorded db i st, Ok tt).
Proof. reflexivity. Qed.

(** C5. For every checkable with an identifier and every prior log,
    check-in records state true and answers checked = true, and check-out
    records state false and answers checked = false; the answer does not
    depend on the prior status. *)
Theorem checkin_checkout_unconditional (self : BaseCheckinsView.View)
    (db : DB) (o : Checkable) (i : Identifier) :
  addresses self db o ->
  checkin_identifier o = Some i ->
  BaseCheckinsView.put CheckInEventConsumer_receive_json self db
  = (recorded db i true, Ok (response_of self o i true))
  /\ BaseCheckinsView.delete CheckInEventConsumer_receive_json self db
     = (recorded db i false, Ok (response_of self o i false)).
Proof.
  intros Ha Hi. split.
  - rewrite (put_runs_consumer _ _ _ _ _ Ha Hi), receive_json_records.
    reflexivity.
  - rewrite (delete_runs_consumer _ _ _ _ _ Ha Hi), receive_json_records.
    reflexivity.
Qed.

Lemma checkin_checkout_unconditional_witness :
  BaseCheckinsView.put CheckInEventConsumer_receive_json venue_view expired_db
  = (recorded expired_db identifier_B1 true,
     Ok (response_of venue_view venue_B1 identifier_B1 true))
  /\ BaseCheckinsView.delete CheckInEventConsumer_receive_json
       venue_view expired_db
     = (recorded expired_db identifier_B1 false,
        Ok (response_of venue_view venue_B1 identifier_B1 false)).
Proof.
  apply (checkin_checkout_unconditional venue_view expired_db venue_B1
           identifier_B1); reflexivity.
Defined.

(** ** Failure of the dispatch *)


Lemma broadcast_checkin_of_checkable (receive_json : Message -> M unit)
    (self : BaseCheckinsView.View) (o : Checkable) (i : Identifier)
    (check : bool) (db : DB) :
  checkin_identifier o = Some i ->
  BaseCheckinsView.broadcast_checkin receive_json self (ObjCheckable o)
                                     check db
  = receive_json (message_of i check) db.
Proof.
  intros Hi.
  unfold BaseCheckinsView.broadcast_checkin, BaseCheckinsView.get_barcodes.
  monad_unfold. simpl. rewrite Hi. reflexivity.
Qed.


Lemma dispatch_unfold (receive_json : Message -> M unit) (method : Method)
    (self : BaseCheckinsView.View) (db : DB) :
  BaseCheckinsView.dispatch receive_json method self db
  = if BaseCheckinsView.permitted self
    then match method with
         | GET => BaseCheckinsView.get self db
         | PUT => BaseCheckinsView.put receive_json self db
         | DELETE => BaseCheckinsView.delete receive_json self db
         | PATCH => BaseCheckinsView.patch receive_json self db
         | POST => BaseCheckinsView.post self db
         end
    else (db, Raise PermissionDenied).
Proof.
  unfold BaseCheckinsView.dispatch, BaseCheckinsView.check_permissions, bind.
  destruct (BaseCheckinsView.permitted self); destruct method; reflexivity.
Qed.



(** With the transport down, the check-in of the example venue is answered
    and recorded; only the message to the subscribers is missing. *)
Example checkin_with_transport_down :
  BaseCheckinsView.dispatch
    (CheckInEventConsumer_receive_json_via transport_down) PUT
    venue_view example_db
  = (recorded_undelivered example_db identifier_B1 true,
     Ok (response_of venue_view venue_B1 identifier_B1 true)).
Proof. reflexivity. Qed.

(** ** Toggle *)

Lemma broadcast_checkin_of_identifier (receive_json : Message -> M unit)
    (self : BaseCheckinsView.View) (i : Identifier) (check : bool) (db : DB) :
  BaseCheckinsView.broadcast_checkin receive_json self (ObjIdentifier i)
                                     check db
  = (db, Raise (AttributeError "checkin_identifier")).
Proof. reflexivity. Qed.

Lemma current_status_readonly (self : BaseCheckinsView.View) (o : Checkable)
    (db : DB) :
  fst (BaseCheckinsView.current_status self o db) = db.
Proof.
  unfold BaseCheckinsView.current_status, get_unexpired_checkins.
  monad_unfold.
  destruct (pref _ _); simpl; try reflexivity.
  destruct (checkin_identifier o); reflexivity.
Qed.

Lemma get_response_dict_readonly (self : BaseCheckinsView.View)
    (o : Checkable) (checked : bool) (db : DB) :
  fst (BaseCheckinsView.get_response_dict self o checked db) = db.
Proof.
  unfold BaseCheckinsView.get_response_dict. monad_unfold. simpl.
  destruct (checkin_identifier o); reflexivity.
Qed.

(** C4. [patch] hands the identifier, not the checkable, to
    [broadcast_checkin], which then reads [checkin_identifier] off it: no
    toggle request is ever answered, and on the venue of the example the
    request ends in an [AttributeError] with nothing recorded. *)
Theorem patch_never_answers :
  (forall (receive_json : Message -> M unit) (self : BaseCheckinsView.View)
          (db : DB) (r : Response),
      snd (BaseCheckinsView.patch receive_json self db) <> Ok r)
  /\ BaseCheckinsView.dispatch CheckInEventConsumer_receive_json PATCH
       venue_view example_db
     = (example_db, Raise (AttributeError "checkin_identifier")).
Proof.
  split; [|reflexivity].
  intros receive_json self db r.
  unfold BaseCheckinsView.patch, bind.
  destruct (BaseCheckinsView.get_object self db) as [db1 [o|e]];
    [|discriminate].
  destruct (BaseCheckinsView.current_status self o db1) as [db2 [check|e]];
    [|discriminate].
  unfold lift.
  destruct (getattr_checkin_identifier (ObjCheckable o)) as [i|e];
    [|discriminate].
  rewrite broadcast_checkin_of_identifier. discriminate.
Qed.

(** ** Creating identifiers *)

Lemma Model_eqb_spec (a b : Model) : Model_eqb a b = true <-> a = b.
Proof. destruct a, b; simpl; split; congruence. Qed.

Lemma filter_none {A : Type} (f : A -> bool) (l : list A) :
  (forall x, In x l -> f x = false) -> List.filter f l = [].
Proof.
  induction l as [|a l IH]; intros H; [reflexivity|].
  simpl. rewrite (H a (or_introl eq_refl)).
  apply IH. intros x Hx. apply H. right. exact Hx.
Qed.

Lemma unknown_eval (self : BaseCheckinsView.View) (db : DB) :
  unknown self db ->
  exists qs, BaseCheckinsView.get_object_queryset self = Ok qs
             /\ QuerySet_eval qs db = [].
Proof.
  intros Hu. eexists. split; [apply get_object_queryset_Ok|].
  unfold QuerySet_eval. apply filter_none. intros o Ho.
  destruct (Model_eqb _ _ && _ && _) eqn:Hq; [|reflexivity].
  exfalso. apply (Hu o Ho).
  apply andb_true_iff in Hq as [Hq Hpk].
  apply andb_true_iff in Hq as [Hm Ht].
  unfold BaseCheckinsView.lookup_kwargs in Ht.
  apply Model_eqb_spec in Hm. apply Z.eqb_eq in Ht. apply Z.eqb_eq in Hpk.
  auto.
Qed.

(** C6. When the request addresses no checkable of the tournament (the set
    is empty or refers to an unknown entity), identifier creation fails
    with NotFound and the store, hence every identifier, is as before. *)
Theorem post_unknown_is_NotFound (self : BaseCheckinsView.View) (db : DB) :
  unknown self db ->
  BaseCheckinsView.post self db = (db, Raise (Http404 "No objects")).
Proof.
  intros Hu. destruct (unknown_eval _ _ Hu) as [qs [Hqs Hev]].
  unfold BaseCheckinsView.post. rewrite Hqs.
  unfold create_identifiers. monad_unfold. rewrite Hev. reflexivity.
Qed.

Lemma post_unknown_is_NotFound_witness :
  BaseCheckinsView.post unknown_venue_view
                        example_db
  = (example_db, Raise (Http404 "No objects")).
Proof.
  apply (post_unknown_is_NotFound
           unknown_venue_view example_db).
  intros o [<- | []] [_ [_ Hpk]]. discriminate Hpk.
Defined.

Lemma attach_identifiers_noop (kind : string) (qs : QuerySet)
    (rows : list Checkable) (taken source : list string) :
  (forall x, In x rows -> qs x = true -> checkin_identifier x <> None) ->
  attach_identifiers kind qs rows taken source = Some (rows, source).
Proof.
  revert taken source.
  induction rows as [|o rest IH]; intros taken source H; [reflexivity|].
  simpl.
  assert (Hrest : forall x, In x rest -> qs x = true ->
                            checkin_identifier x <> None).
  { intros x Hx. apply H. right. exact Hx. }
  destruct (checkin_identifier o) eqn:Ho.
  - rewrite (IH _ _ Hrest). reflexivity.
  - destruct (qs o) eqn:Hq.
    + exfalso. apply (H o (or_introl eq_refl) Hq). exact Ho.
    + rewrite (IH _ _ Hrest). reflexivity.
Qed.

Lemma create_identifiers_identified (kind : string) (qs : QuerySet)
    (db : DB) (o : Checkable) (i : Identifier) :
  QuerySet_eval qs db = [o] ->
  checkin_identifier o = Some i ->
  create_identifiers kind qs db = (db, Ok tt).
Proof.
  intros Hev Hi. unfold create_identifiers. rewrite Hev.
  rewrite attach_identifiers_noop.
  - destruct db; reflexivity.
  - intros x Hx Hq.
    assert (Hin : In x (QuerySet_eval qs db)).
    { unfold QuerySet_eval. apply filter_In. split; assumption. }
    rewrite Hev in Hin. destruct Hin as [<- | []]. congruence.
Qed.

Lemma post_identified (self : BaseCheckinsView.View) (db : DB)
    (o : Checkable) (i : Identifier) :
  addresses self db o ->
  checkin_identifier o = Some i ->
  BaseCheckinsView.post self db = (db, Ok (response_of self o i false)).
Proof.
  intros Ha Hi. destruct (addresses_eval _ _ _ Ha) as [qs [Hqs Hev]].
  unfold BaseCheckinsView.post. rewrite Hqs. unfold bind, lift.
  rewrite (create_identifiers_identified _ _ _ _ _ Hev Hi).
  unfold QuerySet_get. rewrite Hev.
  apply get_response_dict_identified. exact Hi.
Qed.

(** After an answered creation request the addressed checkable owns the
    identifier that was answered. *)
Lemma post_answered (self : BaseCheckinsView.View) (db db' : DB)
    (r : Response) :
  BaseCheckinsView.post self db = (db', Ok r) ->
  exists o i, addresses self db' o
              /\ checkin_identifier o = Some i
              /\ r = response_of self o i false.
Proof.
  unfold BaseCheckinsView.post, addresses.
  rewrite get_object_queryset_Ok. unfold bind, lift.
  destruct (create_identifiers _ _ db) as [db1 [u|e]]; [|discriminate].
  unfold QuerySet_get.
  destruct (QuerySet_eval _ db1) as [|o [|y l]] eqn:Hev; try discriminate.
  unfold BaseCheckinsView.get_response_dict. monad_unfold. simpl.
  destruct (checkin_identifier o) as [i|] eqn:Hi; [|discriminate].
  intros [= <- <-]. exists o, i. auto.
Qed.

(** C7. Identifier creation is idempotent: for a checkable that already
    owns an identifier the request changes nothing and answers that
    identifier's barcode with checked = false; hence repeating an answered
    creation request gives the identical answer and leaves the store as the
    first request left it. *)
Theorem post_idempotent (self : BaseCheckinsView.View) :
  (forall db o i,
      addresses self db o ->
      checkin_identifier o = Some i ->
      BaseCheckinsView.post self db = (db, Ok (response_of self o i false)))
  /\ (forall db db' r,
        BaseCheckinsView.post self db = (db', Ok r) ->
        BaseCheckinsView.post self db' = (db', Ok r)).
Proof.
  split.
  - intros db o i. apply post_identified.
  - intros db db' r Hpost.
    destruct (post_answered _ _ _ _ Hpost) as [o [i [Ha [Hi ->]]]].
    apply post_identified; assumption.
Qed.

Lemma post_idempotent_witness :
  BaseCheckinsView.post venue_view example_db
  = (example_db, Ok (response_of venue_view venue_B1 identifier_B1 false))
  /\ BaseCheckinsView.post venue_view
       (fst (BaseCheckinsView.post venue_view bare_db))
     = BaseCheckinsView.post venue_view bare_db.
Proof.
  split.
  - apply (proj1 (post_idempotent venue_view) example_db venue_B1
                 identifier_B1); reflexivity.
  - apply (proj2 (post_idempotent venue_view) bare_db
                 (fst (BaseCheckinsView.post venue_view bare_db))
                 (response_of venue_view venue_B1 identifier_B1 false)).
    reflexivity.
Defined.

(** ** Reading the status changes nothing *)

Lemma get_readonly (self : BaseCheckinsView.View) (db : DB) :
  fst (BaseCheckinsView.get self db) = db.
Proof.
  unfold BaseCheckinsView.get, bind.
  destruct (BaseCheckinsView.get_object self db) as [db1 [o|e]] eqn:Hobj;
    destruct (get_object_inv _ _ _ _ Hobj) as [-> _]; [|reflexivity].
  pose proof (current_status_readonly self o db) as Hcs.
  destruct (BaseCheckinsView.current_status self o db) as [db2 [c|e]];
    simpl in Hcs; subst db2; [|reflexivity].
  apply get_response_dict_readonly.
Qed.

Lemma dispatch_GET_readonly (receive_json : Message -> M unit)
    (self : BaseCheckinsView.View) (db : DB) :
  fst (BaseCheckinsView.dispatch receive_json GET self db) = db.
Proof.
  rewrite dispatch_unfold.
  destruct (BaseCheckinsView.permitted self); [|reflexivity].
  apply get_readonly.
Qed.

(** C10. A status request is read-only: it leaves the store, and with it
    the event log, the messages sent out and the status derived for every
    identifier, as they were; it never reaches the real-time collaborator,
    so its outcome is the same for every collaborator; and this holds for
    any number of status requests in a row. *)
Theorem get_is_read_only (receive_json : Message -> M unit) :
  (forall self db,
      fst (BaseCheckinsView.dispatch receive_json GET self db) = db)
  /\ (forall other self db,
        BaseCheckinsView.dispatch receive_json GET self db
        = BaseCheckinsView.dispatch other GET self db)
  /\ (forall views db,
        run_gets receive_json views db = db
        /\ events (run_gets receive_json views db) = events db
        /\ outbox (run_gets receive_json views db) = outbox db
        /\ forall code window,
             CurrentStatus code window (run_gets receive_json views db)
             = CurrentStatus code window db).
Proof.
  split; [|split].
  - intros self db. apply dispatch_GET_readonly.
  - intros other self db. reflexivity.
  - intros views db.
    assert (Hrun : run_gets receive_json views db = db).
    { revert db. induction views as [|self rest IH]; intros db;
        [reflexivity|].
      simpl. rewrite dispatch_GET_readonly. apply IH. }
    rewrite Hrun. auto.
Qed.

(** ** Standings *)

(** C8. [get_queryset] of the standings view asks the model class itself
    for [filter]; a model class has no such attribute (its rows are reached
    through its manager, as [BaseCheckinsView.get_queryset] does), so every
    standings request ends in an [AttributeError] before a single record is
    read and no sequence, ordered or not, is produced. *)
Theorem standings_get_raises (Ranked Data : Type)
    (Standings : list Checkable -> Ranked) (get_serializer : Ranked -> Data)
    (self : BaseStandingsView.View) (db : DB) :
  BaseStandingsView.get Ranked Data Standings get_serializer self db
  = (db, Raise (AttributeError "filter")).
Proof. reflexivity. Qed.

(** ** The log and its timestamps *)

Lemma newest_event_In (code : string) (log : list Event) (e : Event) :
  newest_event code log = Some e -> In e log.
Proof.
  induction log as [|x later IH]; simpl; [discriminate|].
  destruct (newest_event code later) as [e'|].
  - intros [= <-]. right. apply IH. reflexivity.
  - destruct (String.eqb (event_identifier x) code); [|discriminate].
    intros [= <-]. left. reflexivity.
Qed.

(** In a log kept in the order of its timestamps, the event the status is
    read from carries the greatest timestamp among the events of its
    identifier. *)
Lemma newest_event_is_latest (code : string) (log : list Event) (e : Event) :
  time_ordered log ->
  newest_event code log = Some e ->
  forall e', In e' log -> event_identifier e' = code ->
             event_time e' <= event_time e.
Proof.
  induction log as [|x later IH]; simpl; [discriminate|].
  intros [Hx Hlater] Hnew e' Hin Hid.
  destruct (newest_event code later) as [l|] eqn:Hl.
  - injection Hnew as <-. destruct Hin as [<- | Hin].
    + apply Hx. eapply newest_event_In. exact Hl.
    + eapply IH; eauto.
  - destruct (String.eqb (event_identifier x) code); [|discriminate].
    injection Hnew as <-. destruct Hin as [<- | Hin]; [lia|].
    exfalso. apply newest_event_None in Hl.
    assert (Hex : existsb (fun e => String.eqb (event_identifier e) code)
                          later = true).
    { apply existsb_exists. exists e'. split; [exact Hin|].
      apply String.eqb_eq. exact Hid. }
    congruence.
Qed.

Lemma time_ordered_app (log : list Event) (e : Event) :
  time_ordered log ->
  (forall e', In e' log -> event_time e' <= event_time e) ->
  time_ordered (log ++ [e]).
Proof.
  induction log as [|x later IH]; simpl.
  - intros _ _. split; [intros e' []|exact I].
  - intros [Hx Hlater] Hle. split.
    + intros e' Hin. apply in_app_or in Hin as [Hin | [<- | []]].
      * apply Hx. exact Hin.
      * apply Hle. left. reflexivity.
    + apply IH; [exact Hlater|]. intros e' Hin. apply Hle. right. exact Hin.
Qed.

(** Recording keeps the log in the order of its timestamps as long as the
    clock has not gone back behind the events already in it. *)
Lemma recorded_time_ordered (db : DB) (i : Identifier) (st : bool) :
  time_ordered (events db) ->
  (forall e, In e (events db) -> event_time e <= now db) ->
  time_ordered (events (recorded db i st)).
Proof.
  intros Hord Hpast. simpl. apply time_ordered_app; [exact Hord|].
  intros e' Hin. simpl. apply Hpast. exact Hin.
Qed.

(** The window is chosen by resource kind: people for adjudicators and
    speakers, venues for venues. *)
Example window_by_kind (ps : list PermissionClass) (rq : Request)
    (t : Tournament) (k : Z) :
  BaseCheckinsView.window_preference_pref
    (AdjudicatorCheckinsView ps rq t k) = "checkin_window_people"
  /\ BaseCheckinsView.window_preference_pref
       (SpeakerCheckinsView ps rq t k) = "checkin_window_people"
  /\ BaseCheckinsView.window_preference_pref
       (VenueCheckinsView ps rq t k) = "checkin_window_venues".
Proof. repeat split. Qed.

(** ** Scenarios of the specification *)

(** Current round R1 and non-current round R2, both released, with the
    preference set to [current]: the public request for R1 is granted, the
    one for R2 is refused. *)
Example pairing_scenario :
  PairingViewSet.Permission.has_permission
    visitor (PairingViewSet.make example_tournament round1) = Ok true
  /\ PairingViewSet.Permission.has_permission
       visitor (PairingViewSet.make example_tournament round2) = Ok false.
Proof. split; reflexivity. Qed.

(** A venue without identifier: creation answers barcode B1, the status is
    unchecked, check-in answers checked, the status then is checked,
    check-out answers unchecked, and so does the status after it. *)
Example venue_scenario :
  let c := CheckInEventConsumer_receive_json in
  let s0 := BaseCheckinsView.dispatch c POST venue_view bare_db in
  let s1 := and_then s0 (BaseCheckinsView.dispatch c GET venue_view) in
  let s2 := and_then s1 (BaseCheckinsView.dispatch c PUT venue_view) in
  let s3 := and_then s2 (BaseCheckinsView.dispatch c GET venue_view) in
  let s4 := and_then s3 (BaseCheckinsView.dispatch c DELETE venue_view) in
  let s5 := and_then s4 (BaseCheckinsView.dispatch c GET venue_view) in
  let answer := response_of venue_view venue_B1 identifier_B1 in
  snd s0 = Ok (answer false)
  /\ snd s1 = Ok (answer false)
  /\ snd s2 = Ok (answer true)
  /\ snd s3 = Ok (answer true)
  /\ snd s4 = Ok (answer false)
  /\ snd s5 = Ok (answer false).
Proof. repeat split; reflexivity. Qed.

(** * Further properties of the views *)

(** ** Looking up the checkable: what is found and what is refused *)

Lemma get_object_unknown (self : BaseCheckinsView.View) (db : DB) :
  unknown self db ->
  BaseCheckinsView.get_object self db
  = (db, Raise (Http404 ("No "
                           ++ Model_object_name (BaseCheckinsView.model self)
                           ++ " matches the given query."))).
Proof.
  intros Hu. destruct (unknown_eval _ _ Hu) as [qs [Hqs Hev]].
  unfold BaseCheckinsView.get_object. rewrite Hqs.
  unfold get_object_or_404, QuerySet_get. monad_unfold. rewrite Hev.
  reflexivity.
Qed.

Lemma get_object_no_identifier (self : BaseCheckinsView.View) (db : DB)
    (o : Checkable) :
  addresses self db o ->
  checkin_identifier o = None ->
  BaseCheckinsView.get_object self db
  = (db, Raise (Http404 "No identifier")).
Proof.
  intros Ha Hi. destruct (addresses_eval _ _ _ Ha) as [qs [Hqs Hev]].
  unfold BaseCheckinsView.get_object. rewrite Hqs.
  unfold BaseCheckinsView.check_object_permissions, get_object_or_404,
    QuerySet_get, hasattr_checkin_identifier.
  monad_unfold. rewrite Hev, Hi. reflexivity.
Qed.

Lemma selected_in_scope (self : BaseCheckinsView.View) (db : DB)
    (o : Checkable) (rest : list Checkable) :
  QuerySet_eval
    (fun o => Model_eqb (row_model o) (BaseCheckinsView.model self)
              && BaseCheckinsView.lookup_kwargs self o
              && Z.eqb (pk o) (BaseCheckinsView.kwargs_pk self)) db
  = o :: rest ->
  In o (objects db) /\ in_scope self o.
Proof.
  intros Hev.
  assert (Hin : In o (QuerySet_eval
    (fun o => Model_eqb (row_model o) (BaseCheckinsView.model self)
              && BaseCheckinsView.lookup_kwargs self o
              && Z.eqb (pk o) (BaseCheckinsView.kwargs_pk self)) db)).
  { rewrite Hev. left. reflexivity. }
  unfold QuerySet_eval in Hin. apply filter_In in Hin as [Hin Hq].
  split; [exact Hin|].
  apply andb_true_iff in Hq as [Hq Hpk].
  apply andb_true_iff in Hq as [Hm Ht].
  unfold BaseCheckinsView.lookup_kwargs in Ht.
  apply Model_eqb_spec in Hm. apply Z.eqb_eq in Ht. apply Z.eqb_eq in Hpk.
  repeat split; assumption.
Qed.

Lemma get_object_Ok_inv (self : BaseCheckinsView.View) (db db' : DB)
    (o : Checkable) :
  BaseCheckinsView.get_object self db = (db', Ok o) ->
  db' = db
  /\ In o (objects db)
  /\ in_scope self o
  /\ exists i, checkin_identifier o = Some i.
Proof.
  unfold BaseCheckinsView.get_object. rewrite get_object_queryset_Ok.
  unfold BaseCheckinsView.check_object_permissions, get_object_or_404,
    QuerySet_get, hasattr_checkin_identifier.
  monad_unfold.
  destruct (QuerySet_eval _ db) as [|x [|y l]] eqn:Hev; try discriminate.
  destruct (checkin_identifier x) as [i|] eqn:Hx; [|discriminate].
  intros [= <- <-].
  destruct (selected_in_scope _ _ _ _ Hev) as [Hin Hsc].
  repeat split; try assumption; try apply Hsc. exists i. exact Hx.
Qed.

(** X1. A status, check-in, check-out or toggle request that the view's
    permission classes admit, for a checkable the tournament does not
    have, ends in the NotFound that names the view's model ("No Venue
    matches the given query." for a venue); the store is untouched and the
    real-time collaborator is not called, whichever it is. *)
Theorem unknown_checkable_is_404 (receive_json : Message -> M unit)
    (method : Method) (self : BaseCheckinsView.View) (db : DB) :
  BaseCheckinsView.permitted self = true ->
  method <> POST ->
  unknown self db ->
  BaseCheckinsView.dispatch receive_json method self db
  = (db, Raise (Http404 ("No "
                           ++ Model_object_name (BaseCheckinsView.model self)
                           ++ " matches the given query."))).
Proof.
  intros Hadm Hm Hu.
  rewrite dispatch_unfold, Hadm.
  destruct method; try contradiction;
    unfold BaseCheckinsView.get, BaseCheckinsView.put,
      BaseCheckinsView.delete, BaseCheckinsView.patch, bind;
    rewrite (get_object_unknown _ _ Hu); reflexivity.
Qed.

Lemma unknown_checkable_is_404_witness :
  BaseCheckinsView.dispatch failing_receive_json PUT
    unknown_venue_view example_db
  = (example_db, Raise (Http404 "No Venue matches the given query.")).
Proof.
  apply (unknown_checkable_is_404 failing_receive_json PUT
           unknown_venue_view example_db).
  - reflexivity.
  - discriminate.
  - intros o [<- | []] [_ [_ Hpk]]. discriminate Hpk.
Defined.

(** X2. A status, check-in, check-out or toggle request that the view's
    permission classes admit, for a checkable that owns no identifier,
    ends in the NotFound "No identifier"; nothing is recorded and the
    real-time collaborator is not called. *)
Theorem missing_identifier_is_404 (receive_json : Message -> M unit)
    (method : Method) (self : BaseCheckinsView.View) (db : DB)
    (o : Checkable) :
  BaseCheckinsView.permitted self = true ->
  method <> POST ->
  addresses self db o ->
  checkin_identifier o = None ->
  BaseCheckinsView.dispatch receive_json method self db
  = (db, Raise (Http404 "No identifier")).
Proof.
  intros Hadm Hm Ha Hi.
  rewrite dispatch_unfold, Hadm.
  destruct method; try contradiction;
    unfold BaseCheckinsView.get, BaseCheckinsView.put,
      BaseCheckinsView.delete, BaseCheckinsView.patch, bind;
    rewrite (get_object_no_identifier _ _ _ Ha Hi); reflexivity.
Qed.

Lemma missing_identifier_is_404_witness :
  BaseCheckinsView.dispatch CheckInEventConsumer_receive_json DELETE
    venue_view bare_db
  = (bare_db, Raise (Http404 "No identifier")).
Proof.
  apply (missing_identifier_is_404 CheckInEventConsumer_receive_json DELETE
           venue_view bare_db venue_bare).
  - reflexivity.
  - discriminate.
  - reflexivity.
  - reflexivity.
Defined.

(** X3. The checkable [get_object] hands to a handler is a row of the
    store, of the view's own model and tournament, with the primary key of
    the URL, and it owns an identifier; the lookup leaves the store as it
    is. A row of another tournament or another model is never returned. *)
Theorem get_object_scoped (self : BaseCheckinsView.View) (db db' : DB)
    (o : Checkable) :
  BaseCheckinsView.get_object self db = (db', Ok o) ->
  db' = db
  /\ In o (objects db)
  /\ in_scope self o
  /\ exists i, checkin_identifier o = Some i.
Proof. apply get_object_Ok_inv. Qed.

Lemma get_object_scoped_witness :
  example_db = example_db
  /\ In venue_B1 (objects example_db)
  /\ in_scope venue_view venue_B1
  /\ exists i, checkin_identifier venue_B1 = Some i.
Proof.
  apply (get_object_scoped venue_view example_db example_db venue_B1).
  reflexivity.
Defined.

(** ** What an answered request reports *)

Lemma response_of_reference (self : BaseCheckinsView.View) (o : Checkable)
    (i : Identifier) (checked : bool) :
  in_scope self o ->
  resp_object (response_of self o i checked) = reference_of self.
Proof.
  intros [_ [_ Hpk]]. unfold response_of, reference_of. simpl.
  rewrite Hpk. reflexivity.
Qed.

Lemma patch_raises (receive_json : Message -> M unit)
    (self : BaseCheckinsView.View) (db db' : DB) (r : Response) :
  BaseCheckinsView.patch receive_json self db <> (db', Ok r).
Proof.
  unfold BaseCheckinsView.patch, bind.
  destruct (BaseCheckinsView.get_object self db) as [db1 [o|e]];
    [|discriminate].
  destruct (BaseCheckinsView.current_status self o db1) as [db2 [check|e]];
    [|discriminate].
  unfold lift.
  destruct (getattr_checkin_identifier (ObjCheckable o)) as [i|e];
    [|discriminate].
  rewrite broadcast_checkin_of_identifier. discriminate.
Qed.

(** X4. Whenever a check-in endpoint answers, whatever the method and the
    real-time collaborator, the response refers to the object of the URL
    (the view's detail route, the tournament's slug, the primary key asked
    for), and its barcode is that of the identifier owned by a row of the
    view's model, tournament and key: a row of the store as the request
    found it, or, for a creation request, as the request left it. *)
Theorem answered_request_names_its_checkable
    (receive_json : Message -> M unit) (method : Method)
    (self : BaseCheckinsView.View) (db db' : DB) (r : Response) :
  BaseCheckinsView.dispatch receive_json method self db = (db', Ok r) ->
  resp_object r = reference_of self
  /\ exists o i,
       In o (objects (match method with POST => db' | _ => db end))
       /\ in_scope self o
       /\ checkin_identifier o = Some i
       /\ resp_barcode r = barcode i.
Proof.
  rewrite dispatch_unfold.
  destruct (BaseCheckinsView.permitted self); [|discriminate].
  intros H.
  destruct method.
  - (* GET *)
    unfold BaseCheckinsView.get, bind in H.
    destruct (BaseCheckinsView.get_object self db) as [db1 [o|e]] eqn:Hobj;
      [|discriminate].
    destruct (get_object_Ok_inv _ _ _ _ Hobj) as [-> [Hin [Hsc [i Hi]]]].
    destruct (BaseCheckinsView.current_status self o db) as [db2 [c|e]];
      [|discriminate].
    rewrite (get_response_dict_identified _ _ _ _ _ Hi) in H.
    injection H as _ <-.
    split; [apply response_of_reference; exact Hsc|].
    exists o, i. auto.
  - (* PUT *)
    unfold BaseCheckinsView.put, bind in H.
    destruct (BaseCheckinsView.get_object self db) as [db1 [o|e]] eqn:Hobj;
      [|discriminate].
    destruct (get_object_Ok_inv _ _ _ _ Hobj) as [-> [Hin [Hsc [i Hi]]]].
    rewrite (broadcast_checkin_of_checkable _ _ _ _ _ _ Hi) in H.
    destruct (receive_json (message_of i true) db) as [db2 [u|e]];
      [|discriminate].
    rewrite (get_response_dict_identified _ _ _ _ _ Hi) in H.
    injection H as _ <-.
    split; [apply response_of_reference; exact Hsc|].
    exists o, i. auto.
  - (* DELETE *)
    unfold BaseCheckinsView.delete, bind in H.
    destruct (BaseCheckinsView.get_object self db) as [db1 [o|e]] eqn:Hobj;
      [|discriminate].
    destruct (get_object_Ok_inv _ _ _ _ Hobj) as [-> [Hin [Hsc [i Hi]]]].
    rewrite (broadcast_checkin_of_checkable _ _ _ _ _ _ Hi) in H.
    destruct (receive_json (message_of i false) db) as [db2 [u|e]];
      [|discriminate].
    rewrite (get_response_dict_identified _ _ _ _ _ Hi) in H.
    injection H as _ <-.
    split; [apply response_of_reference; exact Hsc|].
    exists o, i. auto.
  - (* PATCH *)
    exfalso. exact (patch_raises _ _ _ _ _ H).
  - (* POST *)
    destruct (post_answered _ _ _ _ H) as [o [i [Ha [Hi ->]]]].
    unfold addresses in Ha. rewrite get_object_queryset_Ok in Ha.
    destruct (selected_in_scope _ _ _ _ Ha) as [Hin Hsc].
    split; [apply response_of_reference; exact Hsc|].
    exists o, i. auto.
Qed.

Lemma answered_request_names_its_checkable_witness :
  resp_object (response_of venue_view venue_B1 identifier_B1 false)
     = reference_of venue_view
  /\ exists o i,
       In o (objects (fst (BaseCheckinsView.dispatch
                             CheckInEventConsumer_receive_json POST
                             venue_view bare_db)))
       /\ in_scope venue_view o
       /\ checkin_identifier o = Some i
       /\ resp_barcode (response_of venue_view venue_B1 identifier_B1 false)
          = barcode i.
Proof.
  apply (answered_request_names_its_checkable
           CheckInEventConsumer_receive_json POST venue_view bare_db
           (fst (BaseCheckinsView.dispatch CheckInEventConsumer_receive_json
                   POST venue_view bare_db))
           (response_of venue_view venue_B1 identifier_B1 false)).
  reflexivity.
Defined.

(** ** What the handlers leave to the collaborator *)

(** X5. The status, check-in, check-out and toggle handlers never write
    the store themselves: with a real-time collaborator that leaves the
    store alone, the store after the request is the store before it,
    whether the request is answered or refused. *)
Theorem handlers_write_through_consumer_only
    (receive_json : Message -> M unit) (method : Method)
    (self : BaseCheckinsView.View) (db : DB) :
  (forall m d, fst (receive_json m d) = d) ->
  method <> POST ->
  fst (BaseCheckinsView.dispatch receive_json method self db) = db.
Proof.
  intros Hc Hm.
  rewrite dispatch_unfold.
  destruct (BaseCheckinsView.permitted self); [|reflexivity].
  destruct method; try contradiction.
  - apply get_readonly.
  - unfold BaseCheckinsView.put, bind.
    destruct (BaseCheckinsView.get_object self db) as [db1 [o|e]] eqn:Hobj;
      destruct (get_object_inv _ _ _ _ Hobj) as [-> Hid]; [|reflexivity].
    destruct (Hid o eq_refl) as [i Hi].
    rewrite (broadcast_checkin_of_checkable _ _ _ _ _ _ Hi).
    pose proof (Hc (message_of i true) db) as Hfst.
    destruct (receive_json (message_of i true) db) as [db2 [u|e]];
      simpl in Hfst; subst db2; [|reflexivity].
    apply get_response_dict_readonly.
  - unfold BaseCheckinsView.delete, bind.
    destruct (BaseCheckinsView.get_object self db) as [db1 [o|e]] eqn:Hobj;
      destruct (get_object_inv _ _ _ _ Hobj) as [-> Hid]; [|reflexivity].
    destruct (Hid o eq_refl) as [i Hi].
    rewrite (broadcast_checkin_of_checkable _ _ _ _ _ _ Hi).
    pose proof (Hc (message_of i false) db) as Hfst.
    destruct (receive_json (message_of i false) db) as [db2 [u|e]];
      simpl in Hfst; subst db2; [|reflexivity].
    apply get_response_dict_readonly.
  - unfold BaseCheckinsView.patch, bind.
    destruct (BaseCheckinsView.get_object self db) as [db1 [o|e]] eqn:Hobj;
      destruct (get_object_inv _ _ _ _ Hobj) as [-> Hid]; [|reflexivity].
    pose proof (current_status_readonly self o db) as Hcs.
    destruct (BaseCheckinsView.current_status self o db) as [db2 [c|e]];
      simpl in Hcs; subst db2; [|reflexivity].
    unfold lift.
    destruct (getattr_checkin_identifier (ObjCheckable o)) as [i|e];
      [|reflexivity].
    rewrite broadcast_checkin_of_identifier. reflexivity.
Qed.

Lemma handlers_write_through_consumer_only_witness :
  fst (BaseCheckinsView.dispatch failing_receive_json PUT venue_view
                                 example_db) = example_db.
Proof.
  apply (handlers_write_through_consumer_only failing_receive_json PUT
           venue_view example_db).
  - intros m d. reflexivity.
  - discriminate.
Defined.

(** ** The pairing preference: what the public never sees *)

Lemma get_tournament_preference_current (t : Tournament) (r : Round)
    (op : string) :
  pref t "public_draw" = PStr "current" ->
  PairingViewSet.Permission.get_tournament_preference
    (PairingViewSet.make t r) op
  = Ok (Z.eqb (round_id (current_round t)) (round_id r)
        && DrawStatus_eqb (draw_status r) STATUS_RELEASED).
Proof.
  intros Hpref.
  unfold PairingViewSet.Permission.get_tournament_preference.
  rewrite get_round_status_make. simpl PairingViewSet.tournament.
  simpl PairingViewSet.access_preference. simpl PairingViewSet.round.
  rewrite Hpref.
  destruct (Z.eqb (round_id (current_round t)) (round_id r));
    cbv zeta; by simplify_map_eq.
Qed.

Lemma get_tournament_preference_all_released (t : Tournament) (r : Round)
    (op : string) :
  pref t "public_draw" = PStr "all-released" ->
  PairingViewSet.Permission.get_tournament_preference
    (PairingViewSet.make t r) op
  = Ok (DrawStatus_eqb (draw_status r) STATUS_RELEASED).
Proof.
  intros Hpref.
  unfold PairingViewSet.Permission.get_tournament_preference.
  rewrite get_round_status_make. simpl PairingViewSet.tournament.
  simpl PairingViewSet.access_preference. simpl PairingViewSet.round.
  rewrite Hpref.
  destruct (Z.eqb (round_id (current_round t)) (round_id r));
    cbv zeta; by simplify_map_eq.
Qed.

(** X6. Whatever the tournament's draw preference holds and whichever round
    is current, the preference never grants the pairings of a round whose
    draw is not released. *)
Theorem unreleased_draw_never_public (t : Tournament) (r : Round)
    (op : string) :
  draw_status r <> STATUS_RELEASED ->
  PairingViewSet.Permission.get_tournament_preference
    (PairingViewSet.make t r) op <> Ok true.
Proof.
  intros Hnot.
  assert (Hrel : DrawStatus_eqb (draw_status r) STATUS_RELEASED = false).
  { destruct (DrawStatus_eqb (draw_status r) STATUS_RELEASED) eqn:E;
      [|reflexivity].
    apply DrawStatus_eqb_spec in E. contradiction. }
  unfold PairingViewSet.Permission.get_tournament_preference.
  rewrite get_round_status_make, Hrel.
  destruct (Z.eqb _ _); cbv zeta;
    (destruct (pref _ _) as [key| |]; [|discriminate..];
     destruct (decide (key = "off")) as [->|Hoff];
       [by simplify_map_eq|];
     destruct (decide (key = "current")) as [->|Hcur];
       [by simplify_map_eq|];
     destruct (decide (key = "all-released")) as [->|Hall];
       by simplify_map_eq).
Qed.

Lemma unreleased_draw_never_public_witness :
  PairingViewSet.Permission.get_tournament_preference
    (PairingViewSet.make all_released_tournament round_draft) "retrieve"
  <> Ok true.
Proof.
  apply (unreleased_draw_never_public all_released_tournament round_draft
           "retrieve").
  discriminate.
Defined.

(** X7. The preference [all-released] is at least as open as [current]:
    a round whose pairings the preference grants in a tournament set to
    [current] is granted in any tournament set to [all-released], whichever
    round is current there. *)
Theorem all_released_at_least_current (t t' : Tournament) (r : Round)
    (op : string) :
  pref t "public_draw" = PStr "current" ->
  pref t' "public_draw" = PStr "all-released" ->
  PairingViewSet.Permission.get_tournament_preference
    (PairingViewSet.make t r) op = Ok true ->
  PairingViewSet.Permission.get_tournament_preference
    (PairingViewSet.make t' r) op = Ok true.
Proof.
  intros Hcur Hall.
  rewrite (get_tournament_preference_current _ _ _ Hcur).
  rewrite (get_tournament_preference_all_released _ _ _ Hall).
  intros [= H]. apply andb_true_iff in H as [_ ->]. reflexivity.
Qed.

Lemma all_released_at_least_current_witness :
  PairingViewSet.Permission.get_tournament_preference
    (PairingViewSet.make all_released_tournament round1) "retrieve"
  = Ok true.
Proof.
  apply (all_released_at_least_current example_tournament
           all_released_tournament round1 "retrieve"); reflexivity.
Defined.

(** X8. A draw preference that holds anything but one of the three
    choices (another string, a number, a flag) makes the permission's
    dictionary lookup raise [KeyError], for every round. *)
Theorem draw_preference_outside_choices_raises (t : Tournament) (r : Round)
    (op : string) :
  (forall p, pref t "public_draw" <> PStr (ReleasePreference_key p)) ->
  PairingViewSet.Permission.get_tournament_preference
    (PairingViewSet.make t r) op = Raise KeyError.
Proof.
  intros Hout.
  destruct (pref t "public_draw") as [key|n|b] eqn:Hpref.
  - unfold PairingViewSet.Permission.get_tournament_preference.
    rewrite get_round_status_make. simpl PairingViewSet.tournament.
    simpl PairingViewSet.access_preference. rewrite Hpref.
    assert (Hoff : key <> "off").
    { intros ->. exact (Hout pref_off eq_refl). }
    assert (Hcur : key <> "current").
    { intros ->. exact (Hout pref_current eq_refl). }
    assert (Hall : key <> "all-released").
    { intros ->. exact (Hout pref_all_released eq_refl). }
    destruct (Z.eqb _ _); cbv zeta; by simplify_map_eq.
  - unfold PairingViewSet.Permission.get_tournament_preference.
    rewrite get_round_status_make. simpl PairingViewSet.tournament.
    simpl PairingViewSet.access_preference. rewrite Hpref.
    destruct (Z.eqb _ _); reflexivity.
  - unfold PairingViewSet.Permission.get_tournament_preference.
    rewrite get_round_status_make. simpl PairingViewSet.tournament.
    simpl PairingViewSet.access_preference. rewrite Hpref.
    destruct (Z.eqb _ _); reflexivity.
Qed.

Lemma draw_preference_outside_choices_raises_witness :
  PairingViewSet.Permission.get_tournament_preference
    (PairingViewSet.make odd_tournament round1) "retrieve" = Raise KeyError.
Proof.
  apply (draw_preference_outside_choices_raises odd_tournament round1
           "retrieve").
  intros p. destruct p; discriminate.
Defined.

(** ** Feedback questions: the two query parameters *)

Lemma feedback_queryset_true (super : FeedbackQuestionViewSet.View ->
                                      FeedbackQuestion -> bool)
    (self : FeedbackQuestionViewSet.View) (q : FeedbackQuestion) :
  FeedbackQuestionViewSet.get_queryset super self q = true
  <-> super self q = true
      /\ (truthy (FeedbackQuestionViewSet.query_params self "from_adj") = true
          -> from_adj q = true)
      /\ (truthy (FeedbackQuestionViewSet.query_params self "from_team") = true
          -> from_team q = true).
Proof.
  unfold FeedbackQuestionViewSet.get_queryset.
  destruct (truthy (FeedbackQuestionViewSet.query_params self "from_adj"));
    destruct (truthy (FeedbackQuestionViewSet.query_params self "from_team"));
    destruct (super self q), (from_adj q), (from_team q); simpl;
    intuition congruence.
Qed.

(** X9. The feedback questions listed are exactly those of the inherited
    queryset that pass the requested restrictions: a truthy [from_adj]
    keeps only questions answered by adjudicators, a truthy [from_team]
    only questions answered by teams, both together only questions with
    both flags; the view never adds a question. *)
Theorem feedback_questions_selected
    (super : FeedbackQuestionViewSet.View -> FeedbackQuestion -> bool)
    (self : FeedbackQuestionViewSet.View) (table : list FeedbackQuestion)
    (q : FeedbackQuestion) :
  In q (List.filter (FeedbackQuestionViewSet.get_queryset super self) table)
  <-> In q (List.filter (super self) table)
      /\ (truthy (FeedbackQuestionViewSet.query_params self "from_adj") = true
          -> from_adj q = true)
      /\ (truthy (FeedbackQuestionViewSet.query_params self "from_team") = true
          -> from_team q = true).
Proof.
  rewrite !filter_In, feedback_queryset_true. tauto.
Qed.

(** X10. The value of the parameter is not read, only whether it is empty:
    with any non-empty [from_adj], be it [true], [false] or [0], every
    question listed is one answered by adjudicators; with an empty or
    missing [from_adj] and [from_team] the inherited queryset is listed
    unchanged. *)
Theorem from_adj_value_is_ignored
    (super : FeedbackQuestionViewSet.View -> FeedbackQuestion -> bool)
    (self : FeedbackQuestionViewSet.View) (table : list FeedbackQuestion) :
  (forall v, FeedbackQuestionViewSet.query_params self "from_adj" = Some v ->
             v <> "" ->
             forall q,
               In q (List.filter
                       (FeedbackQuestionViewSet.get_queryset super self)
                       table) ->
               from_adj q = true)
  /\ (truthy (FeedbackQuestionViewSet.query_params self "from_adj") = false ->
      truthy (FeedbackQuestionViewSet.query_params self "from_team") = false ->
      List.filter (FeedbackQuestionViewSet.get_queryset super self) table
      = List.filter (super self) table).
Proof.
  split.
  - intros v Hv Hne q Hin. apply filter_In in Hin as [_ Hq].
    apply feedback_queryset_true in Hq as [_ [Hadj _]].
    apply Hadj. rewrite Hv. simpl.
    destruct (String.eqb v "") eqn:E; [|reflexivity].
    apply String.eqb_eq in E. contradiction.
  - intros Ha Ht. unfold FeedbackQuestionViewSet.get_queryset.
    rewrite Ha, Ht. reflexivity.
Qed.

Lemma from_adj_value_is_ignored_witness :
  List.filter
    (FeedbackQuestionViewSet.get_queryset questions_of_tournament
                                          from_adj_false_request)
    question_table
  = [ {| question_id := 1; question_tournament := 1;
         from_adj := true; from_team := false |};
      {| question_id := 3; question_tournament := 1;
         from_adj := true; from_team := true |} ]
  /\ from_adj {| question_id := 3; question_tournament := 1;
                 from_adj := true; from_team := true |} = true.
Proof.
  split; [reflexivity|].
  apply (proj1 (from_adj_value_is_ignored questions_of_tournament
                  from_adj_false_request question_table) "false").
  - reflexivity.
  - discriminate.
  - simpl. auto.
Defined.

(** ** Institutions of a tournament *)

Lemma In_outer_join (t : Z) (related : list Z) :
  In (Some t) (outer_join related) <-> In t related.
Proof.
  destruct related as [|x l]; simpl.
  - split; [intros [H | []]; discriminate H | intros []].
  - split.
    + intros [H | H]; [left; congruence|].
      right. apply in_map_iff in H as [y [[= ->] Hy]]. exact Hy.
    + intros [-> | H]; [left; reflexivity|].
      right. apply in_map. exact H.
Qed.

Lemma outer_join_inhabited (related : list Z) :
  exists c, In c (outer_join related).
Proof.
  destruct related as [|x l]; simpl; eauto.
Qed.

Lemma column_is_true (t : Z) (c : option Z) :
  column_is t c = true <-> c = Some t.
Proof.
  destruct c as [t'|]; simpl.
  - rewrite Z.eqb_eq. split; congruence.
  - split; discriminate.
Qed.

(** X11. The institutions listed for a tournament are exactly the
    institutions with at least one adjudicator or one team in that
    tournament, and each of them is listed once, however many adjudicators
    and teams it has there. *)
Theorem institutions_of_tournament_once (t : Tournament)
    (table : list Institution) :
  List.NoDup (InstitutionViewSet.get_queryset t table)
  /\ forall i,
       In i (InstitutionViewSet.get_queryset t table)
       <-> In i table
           /\ (In (tournament_id t) (adjudicator_tournaments i)
               \/ In (tournament_id t) (team_tournaments i)).
Proof.
  split; [apply NoDup_nodup|].
  intros i. unfold InstitutionViewSet.get_queryset.
  rewrite nodup_In, in_map_iff. split.
  - intros [[j [a b]] [Hfst Hrow]]. simpl in Hfst. subst j.
    apply filter_In in Hrow as [Hjoin Hmatch].
    unfold InstitutionViewSet.joined in Hjoin.
    apply in_flat_map in Hjoin as [j [Hj Hpair]].
    apply in_map_iff in Hpair as [[a' b'] [[= -> -> ->] Hprod]].
    apply in_prod_iff in Hprod as [Ha Hb].
    split; [exact Hj|].
    simpl in Hmatch. apply orb_true_iff in Hmatch as [H | H];
      apply column_is_true in H; subst.
    + left. apply In_outer_join. exact Ha.
    + right. apply In_outer_join. exact Hb.
  - intros [Hi Hrel].
    assert (Hrow : exists a b,
               In a (outer_join (adjudicator_tournaments i))
               /\ In b (outer_join (team_tournaments i))
               /\ column_is (tournament_id t) a
                  || column_is (tournament_id t) b = true).
    { destruct Hrel as [H | H].
      - destruct (outer_join_inhabited (team_tournaments i)) as [b Hb].
        exists (Some (tournament_id t)), b.
        split; [apply In_outer_join; exact H|]. split; [exact Hb|].
        simpl. rewrite Z.eqb_refl. reflexivity.
      - destruct (outer_join_inhabited (adjudicator_tournaments i))
          as [a Ha].
        exists a, (Some (tournament_id t)).
        split; [exact Ha|]. split; [apply In_outer_join; exact H|].
        simpl. rewrite Z.eqb_refl. apply orb_true_r. }
    destruct Hrow as [a [b [Ha [Hb Hmatch]]]].
    exists (i, (a, b)). split; [reflexivity|].
    apply filter_In. split; [|exact Hmatch].
    unfold InstitutionViewSet.joined. apply in_flat_map.
    exists i. split; [exact Hi|].
    apply in_map. apply in_prod; assumption.
Qed.

(** The institution with two adjudicators and two teams in the tournament
    is listed once; the one with none there is not listed. *)
Example institutions_example :
  map institution_id
      (InstitutionViewSet.get_queryset example_tournament institution_table)
  = [1; 3].
Proof. reflexivity. Qed.

(** ** A write followed by a status request *)

Lemma newest_event_app_same (code : string) (log : list Event) (e : Event) :
  event_identifier e = code ->
  newest_event code (log ++ [e]) = Some e.
Proof.
  intros He. induction log as [|x l IH]; simpl.
  - rewrite He, String.eqb_refl. reflexivity.
  - rewrite IH. reflexivity.
Qed.

Lemma newest_event_app_other (code : string) (log : list Event) (e : Event) :
  event_identifier e <> code ->
  newest_event code (log ++ [e]) = newest_event code log.
Proof.
  intros He. induction log as [|x l IH]; simpl.
  - destruct (String.eqb (event_identifier e) code) eqn:E; [|reflexivity].
    apply String.eqb_eq in E. contradiction.
  - rewrite IH. reflexivity.
Qed.

Lemma addresses_recorded (self : BaseCheckinsView.View) (db : DB)
    (o : Checkable) (i : Identifier) (st : bool) :
  addresses self db o -> addresses self (recorded db i st) o.
Proof. unfold addresses. rewrite get_object_queryset_Ok. auto. Qed.

Lemma get_answer (self : BaseCheckinsView.View) (db : DB) (o : Checkable)
    (i : Identifier) (window : Z) :
  addresses self db o ->
  checkin_identifier o = Some i ->
  pref (BaseCheckinsView.tournament self)
       (BaseCheckinsView.window_preference_pref self) = PInt window ->
  BaseCheckinsView.get self db
  = (db, Ok (response_of self o i (CurrentStatus (barcode i) window db))).
Proof.
  intros Ha Hi Hw. unfold BaseCheckinsView.get, bind.
  rewrite (get_object_found _ _ _ _ Ha Hi).
  rewrite (current_status_is_CurrentStatus _ _ _ _ _ Hi Hw).
  apply get_response_dict_identified. exact Hi.
Qed.

(** X12. With the collaborator and the status query as modelled from the
    specification, and no other write in between: a status request made
    [d] ticks after a check-in of the same checkable answers checked = true
    when [d] is at most the freshness window and checked = false when [d]
    is more than the window; a status request made after a check-out
    answers checked = false however long after. *)
Theorem status_after_write (self : BaseCheckinsView.View) (db : DB)
    (o : Checkable) (i : Identifier) (window : Z) :
  addresses self db o ->
  checkin_identifier o = Some i ->
  pref (BaseCheckinsView.tournament self)
       (BaseCheckinsView.window_preference_pref self) = PInt window ->
  (forall d,
      BaseCheckinsView.get self
        (later d (fst (BaseCheckinsView.put
                         CheckInEventConsumer_receive_json self db)))
      = (later d (recorded db i true),
         Ok (response_of self o i (Z.leb d window))))
  /\ (forall d,
        BaseCheckinsView.get self
          (later d (fst (BaseCheckinsView.delete
                           CheckInEventConsumer_receive_json self db)))
        = (later d (recorded db i false),
           Ok (response_of self o i false))).
Proof.
  intros Ha Hi Hw.
  rewrite (put_runs_consumer _ _ _ _ _ Ha Hi).
  rewrite (delete_runs_consumer _ _ _ _ _ Ha Hi).
  rewrite !receive_json_records. cbn [fst].
  assert (Hlater : forall d st,
             addresses self (later d (recorded db i st)) o).
  { intros d st. unfold addresses in *.
    rewrite get_object_queryset_Ok in *. exact Ha. }
  split; intros d.
  - rewrite (get_answer _ _ _ _ _ (Hlater d true) Hi Hw).
    unfold CurrentStatus. cbn [events recorded later].
    rewrite newest_event_app_same by reflexivity.
    unfold within_window.
    change (now (later d (recorded db i true))) with (now db + d).
    cbn [event_time event_state].
    destruct (Z.leb_spec (now db + d - window) (now db));
      destruct (Z.leb_spec d window); try lia; reflexivity.
  - rewrite (get_answer _ _ _ _ _ (Hlater d false) Hi Hw).
    unfold CurrentStatus. cbn [events recorded later].
    rewrite newest_event_app_same by reflexivity.
    cbn [event_state]. destruct (within_window _ _ _); reflexivity.
Qed.

Lemma status_after_write_witness :
  BaseCheckinsView.get venue_view
    (later 12 (fst (BaseCheckinsView.put CheckInEventConsumer_receive_json
                                         venue_view expired_db)))
  = (later 12 (recorded expired_db identifier_B1 true),
     Ok (response_of venue_view venue_B1 identifier_B1 true))
  /\ BaseCheckinsView.get venue_view
       (later 13 (fst (BaseCheckinsView.put CheckInEventConsumer_receive_json
                                            venue_view expired_db)))
     = (later 13 (recorded expired_db identifier_B1 true),
        Ok (response_of venue_view venue_B1 identifier_B1 false))
  /\ BaseCheckinsView.get venue_view
       (later 0 (fst (BaseCheckinsView.delete
                        CheckInEventConsumer_receive_json
                        venue_view expired_db)))
     = (later 0 (recorded expired_db identifier_B1 false),
        Ok (response_of venue_view venue_B1 identifier_B1 false)).
Proof.
  pose proof (status_after_write venue_view expired_db venue_B1
                identifier_B1 12 eq_refl eq_refl eq_refl) as [Hput Hdel].
  split; [exact (Hput 12)|]. split; [exact (Hput 13)|]. exact (Hdel 0).
Defined.

(** X13. With the collaborator and the status query as modelled from the
    specification, checking one checkable in or out does not change what a
    status request answers for a checkable with another barcode. *)
Theorem write_leaves_other_status (self other : BaseCheckinsView.View)
    (db : DB) (o o' : Checkable) (i i' : Identifier) (window : Z) :
  addresses self db o ->
  checkin_identifier o = Some i ->
  addresses other db o' ->
  checkin_identifier o' = Some i' ->
  barcode i <> barcode i' ->
  pref (BaseCheckinsView.tournament other)
       (BaseCheckinsView.window_preference_pref other) = PInt window ->
  snd (and_then (BaseCheckinsView.put CheckInEventConsumer_receive_json
                                      self db)
                (BaseCheckinsView.get other))
  = snd (BaseCheckinsView.get other db)
  /\ snd (and_then (BaseCheckinsView.delete CheckInEventConsumer_receive_json
                                            self db)
                   (BaseCheckinsView.get other))
     = snd (BaseCheckinsView.get other db).
Proof.
  intros Ha Hi Ha' Hi' Hne Hw. unfold and_then.
  rewrite (put_runs_consumer _ _ _ _ _ Ha Hi).
  rewrite (delete_runs_consumer _ _ _ _ _ Ha Hi).
  rewrite !receive_json_records. cbn [fst].
  rewrite (get_answer _ _ _ _ _ Ha' Hi' Hw).
  split.
  - rewrite (get_answer _ _ _ _ _ (addresses_recorded _ _ _ i true Ha')
                        Hi' Hw).
    cbn [snd]. unfold CurrentStatus. cbn [events recorded now].
    rewrite newest_event_app_other by exact Hne. reflexivity.
  - rewrite (get_answer _ _ _ _ _ (addresses_recorded _ _ _ i false Ha')
                        Hi' Hw).
    cbn [snd]. unfold CurrentStatus. cbn [events recorded now].
    rewrite newest_event_app_other by exact Hne. reflexivity.
Qed.

Lemma write_leaves_other_status_witness :
  snd (and_then (BaseCheckinsView.put CheckInEventConsumer_receive_json
                                      venue_view two_venues_db)
                (BaseCheckinsView.get venue9_view))
  = snd (BaseCheckinsView.get venue9_view two_venues_db)
  /\ snd (and_then (BaseCheckinsView.delete CheckInEventConsumer_receive_json
                                            venue_view two_venues_db)
                   (BaseCheckinsView.get venue9_view))
     = snd (BaseCheckinsView.get venue9_view two_venues_db).
Proof.
  apply (write_leaves_other_status venue_view venue9_view two_venues_db
           venue_B1 venue_B9 identifier_B1 identifier_B9 12);
    try reflexivity.
  discriminate.
Defined.
